(** * CodeSync relay server: presence registry and signaling relay

    A shallow embedding of the socket server (the file with
    [userSocketMap], [getUsersInRoom], [getRoomId], [getUserBySocketId] and
    the [io.on("connection", ...)] handlers), and the properties of it that
    the specification states.

    The server keeps one process-wide array [userSocketMap : User[]] and
    talks to its clients through socket.io: [socket.join] / [socket.leave],
    [io.to(room).emit] and [socket.broadcast.to(room).emit].  Handlers are
    written here in a small state-and-log monad: the state is the array
    together with socket.io's room table, and the log records, in program
    order, every emission (with the connections that receive it), every
    assignment to the array and every [join] / [leave]. *)

From Stdlib Require Import String List ZArith Bool Lia Permutation.
Import ListNotations.
Local Open Scope string_scope.
Local Open Scope list_scope.

(** ** Data model *)

(** Modelled from the spec: the declaration of [SocketId] in [types/socket]
    is not among the sources.  It is the spec's opaque [connectionId], here
    socket.io's [socket.id], a string.  Room names are strings as well, and
    socket.io puts every connection in a room named by its own id. *)
Definition SocketId := string.

(** Modelled from the spec: the declaration of [USER_CONNECTION_STATUS] in
    [types/user] is not among the sources.  The spec gives
    [status] the two values ONLINE and OFFLINE, the two the handlers use. *)
Inductive USER_CONNECTION_STATUS := OFFLINE | ONLINE.

(** Modelled from the spec: the declaration of [User] in [types/user] is
    not among the sources.  The fields are those of the spec's Participant,
    under the names the join handler's literal [newUser] gives them
    ([socketId] is the spec's [connectionId]). *)
Record User := mkUser {
  username : string;
  roomId : string;
  status : USER_CONNECTION_STATUS;
  cursorPosition : Z;
  typing : bool;
  socketId : SocketId;
  currentFile : option string
}.

(** Payload values the server never looks into (SDP descriptions, ICE
    candidates, file trees, chat messages, drawings). *)
#[warnings="-register-all"]
Inductive Json :=
| JNull
| JBool (b : bool)
| JNum (n : Z)
| JStr (s : string)
| JArr (items : list Json)
| JObj (fields : list (string * Json)).

(** Events a client sends: one constructor per [socket.on(SocketEvent.X, ...)],
    named by the member of [SocketEvent] the handler is registered for (the
    enum's declaration, in [types/socket], is not among the sources), its
    arguments the properties the handler's parameter pattern binds.  The
    three signaling events also carry [rest], the properties of the incoming
    object that the pattern does not bind (a client may put anything there,
    for instance a [socketId] of its choice). *)
Module Recv.
Inductive t :=
| JOIN_REQUEST (roomId username : string)
| SIGNAL_ICE_CANDIDATE (candidate : Json) (roomId : string) (rest : list (string * Json))
| SIGNAL_OFFER (offer : Json) (roomId : string) (rest : list (string * Json))
| SIGNAL_ANSWER (answer : Json) (roomId : string) (rest : list (string * Json))
| SYNC_FILE_STRUCTURE (fileStructure openFiles activeFile : Json)
| DIRECTORY_CREATED (parentDirId newDirectory : Json)
| DIRECTORY_UPDATED (dirId children : Json)
| DIRECTORY_RENAMED (dirId newName : Json)
| DIRECTORY_DELETED (dirId : Json)
| FILE_CREATED (parentDirId newFile : Json)
| FILE_UPDATED (fileId newContent : Json)
| FILE_RENAMED (fileId newName : Json)
| FILE_DELETED (fileId : Json)
| USER_OFFLINE (socketId : SocketId)
| USER_ONLINE (socketId : SocketId)
| SEND_MESSAGE (message : Json)
| TYPING_START (cursorPosition : Z)
| TYPING_PAUSE
| REQUEST_DRAWING
| SYNC_DRAWING (drawingData : Json) (socketId : SocketId).
End Recv.

(** Events the server emits, with the object literal each [emit] passes. *)
Module Emit.
Inductive t :=
| USERNAME_EXISTS
| USER_JOINED (user : User)
| JOIN_ACCEPTED (user : User) (users : list User)
| USER_DISCONNECTED (user : User)
| SIGNAL_ICE_CANDIDATE (candidate : Json) (socketId : SocketId)
| SIGNAL_OFFER (offer : Json) (socketId : SocketId)
| SIGNAL_ANSWER (answer : Json) (socketId : SocketId)
| SYNC_FILE_STRUCTURE (fileStructure openFiles activeFile : Json)
| DIRECTORY_CREATED (parentDirId newDirectory : Json)
| DIRECTORY_UPDATED (dirId children : Json)
| DIRECTORY_RENAMED (dirId newName : Json)
| DIRECTORY_DELETED (dirId : Json)
| FILE_CREATED (parentDirId newFile : Json)
| FILE_UPDATED (fileId newContent : Json)
| FILE_RENAMED (fileId newName : Json)
| FILE_DELETED (fileId : Json)
| USER_OFFLINE (socketId : SocketId)
| USER_ONLINE (socketId : SocketId)
| RECEIVE_MESSAGE (message : Json)
| TYPING_START (user : User)
| TYPING_PAUSE (user : User)
| REQUEST_DRAWING (socketId : SocketId)
| SYNC_DRAWING (drawingData : Json).
End Emit.

(** ** The registry: [userSocketMap] and its three readers *)

(** [userSocketMap.filter((user) => user.roomId === roomId)] *)
Definition getUsersInRoom (room : string) (userSocketMap : list User) : list User :=
  filter (fun user => user.(roomId) =? room) userSocketMap.

(** [userSocketMap.find((user) => user.socketId === socketId)], [null] as
    [None]. *)
Definition getUserBySocketId (id : SocketId) (userSocketMap : list User) : option User :=
  find (fun user => user.(socketId) =? id) userSocketMap.

(** The same [find], projected to the record's [roomId]. *)
Definition getRoomId (id : SocketId) (userSocketMap : list User) : option string :=
  match find (fun user => user.(socketId) =? id) userSocketMap with
  | None => None
  | Some user => Some user.(roomId)
  end.

(** [{ ...user, status }], [{ ...user, typing: true, cursorPosition }] and
    [{ ...user, typing: false }]. *)
Definition with_status (s : USER_CONNECTION_STATUS) (user : User) : User :=
  mkUser user.(username) user.(roomId) s user.(cursorPosition) user.(typing)
         user.(socketId) user.(currentFile).

Definition with_typing_at (pos : Z) (user : User) : User :=
  mkUser user.(username) user.(roomId) user.(status) pos true
         user.(socketId) user.(currentFile).

Definition with_typing_off (user : User) : User :=
  mkUser user.(username) user.(roomId) user.(status) user.(cursorPosition) false
         user.(socketId) user.(currentFile).

(** [userSocketMap.map((user) => user.socketId === id ? f(user) : user)] *)
Definition map_matching (id : SocketId) (f : User -> User) (userSocketMap : list User) : list User :=
  map (fun user => if user.(socketId) =? id then f user else user) userSocketMap.

(** ** socket.io's room table

    The adapter's [Map<Room, Set<SocketId>>], kept as the list of its
    (room, member) entries in insertion order, so that the members of a
    room come out in the order they joined it. *)
Definition RoomTable := list (string * SocketId).

Definition same_entry (room : string) (id : SocketId) (e : string * SocketId) : bool :=
  (fst e =? room) && (snd e =? id).

Definition room_members (room : string) (table : RoomTable) : list SocketId :=
  map snd (filter (fun e => fst e =? room) table).

(** [socket.join(room)]: a set insertion. *)
Definition table_add (id : SocketId) (room : string) (table : RoomTable) : RoomTable :=
  if existsb (same_entry room id) table then table else table ++ [(room, id)].

(** [socket.leave(room)] *)
Definition table_del (id : SocketId) (room : string) (table : RoomTable) : RoomTable :=
  filter (fun e => negb (same_entry room id e)) table.

(** What socket.io does after the ["disconnecting"] handlers have run: the
    connection leaves every room. *)
Definition table_delAll (id : SocketId) (table : RoomTable) : RoomTable :=
  filter (fun e => negb (snd e =? id)) table.

(** Where an [emit] is addressed: [io.to(room)] reaches every member of
    [room]; [socket.broadcast.to(room)] reaches the members of [room] that
    are not excepted. *)
Inductive Target :=
| io_to (room : string)
| socket_broadcast_to (socket_id : SocketId) (room : string).

(** [socket.broadcast] sets the operator's [except] to [{socket.id}], and
    the adapter reads [except] as a set of rooms: it leaves out every
    member of the room named by the socket's id.  That is the socket itself
    while it is connected, and any other connection that has joined the
    room of that name. *)
Definition excepted (socket_id : SocketId) (table : RoomTable) (id : SocketId) : bool :=
  existsb (String.eqb id) (room_members socket_id table).

Definition receivers (via : Target) (table : RoomTable) : list SocketId :=
  match via with
  | io_to room => room_members room table
  | socket_broadcast_to socket_id room =>
      filter (fun id => negb (excepted socket_id table id)) (room_members room table)
  end.

(** ** Server state, effects and the handler monad *)

Record Server := mkServer {
  userSocketMap : list User;
  rooms : RoomTable
}.

Definition initial : Server := mkServer [] [].

Inductive Effect :=
| Emitted (via : Target) (ev : Emit.t) (to : list SocketId)
| Assigned (registry : list User)
| Joined (socket_id : SocketId) (room : string)
| Left (socket_id : SocketId) (room : string).

Definition Handler (A : Type) : Type := Server -> A * Server * list Effect.

Definition ret {A : Type} (a : A) : Handler A := fun s => (a, s, []).

Definition bind {A B : Type} (m : Handler A) (k : A -> Handler B) : Handler B :=
  fun s =>
    let '(a, s1, l1) := m s in
    let '(b, s2, l2) := k a s1 in
    (b, s2, l1 ++ l2).

Declare Scope handler_scope.
Delimit Scope handler_scope with handler.
Notation "x <- m ;; k" := (bind m (fun x => k))
  (at level 61, m at next level, right associativity) : handler_scope.
Notation "m ;; k" := (bind m (fun _ => k))
  (at level 61, right associativity) : handler_scope.
Local Open Scope handler_scope.

(** Read the array through one of its readers. *)
Definition read {A : Type} (f : list User -> A) : Handler A :=
  fun s => (f s.(userSocketMap), s, []).

(** [userSocketMap = registry] *)
Definition assign (registry : list User) : Handler unit :=
  fun s => (tt, mkServer registry s.(rooms), [Assigned registry]).

Definition socket_join (socket_id : SocketId) (room : string) : Handler unit :=
  fun s => (tt, mkServer s.(userSocketMap) (table_add socket_id room s.(rooms)),
            [Joined socket_id room]).

Definition socket_leave (socket_id : SocketId) (room : string) : Handler unit :=
  fun s => (tt, mkServer s.(userSocketMap) (table_del socket_id room s.(rooms)),
            [Left socket_id room]).

Definition emit (via : Target) (ev : Emit.t) : Handler unit :=
  fun s => (tt, s, [Emitted via ev (receivers via s.(rooms))]).

(** [if (!roomId) return;] on a [string | null]: [null] and the empty
    string are both falsy. *)
Definition when_room (r : option string) (k : string -> Handler unit) : Handler unit :=
  match r with
  | None => ret tt
  | Some room => if room =? "" then ret tt else k room
  end.

(** [if (!user) return;] on a [User | null]: only [null] is falsy. *)
Definition when_user (u : option User) (k : User -> Handler unit) : Handler unit :=
  match u with
  | None => ret tt
  | Some user => k user
  end.

(** ** The handlers of [io.on("connection", (socket) => ...)]

    [socket_id] is [socket.id], the id of the connection the handler was
    registered for. *)

Definition newUser (socket_id : SocketId) (room name : string) : User :=
  {| username := name;
     roomId := room;
     status := ONLINE;
     cursorPosition := 0;
     typing := false;
     socketId := socket_id;
     currentFile := None |}.

Definition on_JOIN_REQUEST (socket_id : SocketId) (room name : string) : Handler unit :=
  isUsernameExist <-
    read (fun reg => existsb (fun user => user.(username) =? name) (getUsersInRoom room reg)) ;;
  if isUsernameExist : bool then
    emit (io_to socket_id) Emit.USERNAME_EXISTS
  else
    reg <- read (fun reg => reg) ;;
    assign (reg ++ [newUser socket_id room name]) ;;
    socket_join socket_id room ;;
    emit (socket_broadcast_to socket_id room)
         (Emit.USER_JOINED (newUser socket_id room name)) ;;
    users <- read (getUsersInRoom room) ;;
    emit (io_to socket_id) (Emit.JOIN_ACCEPTED (newUser socket_id room name) users).

Definition on_disconnecting (socket_id : SocketId) : Handler unit :=
  user <- read (getUserBySocketId socket_id) ;;
  when_user user (fun user =>
    emit (socket_broadcast_to socket_id user.(roomId)) (Emit.USER_DISCONNECTED user) ;;
    reg <- read (fun reg => reg) ;;
    assign (filter (fun u => negb (u.(socketId) =? socket_id)) reg) ;;
    socket_leave socket_id user.(roomId)).

Definition on_SIGNAL_ICE_CANDIDATE (socket_id : SocketId) (candidate : Json) (room : string)
  : Handler unit :=
  emit (socket_broadcast_to socket_id room) (Emit.SIGNAL_ICE_CANDIDATE candidate socket_id).

Definition on_SIGNAL_OFFER (socket_id : SocketId) (offer : Json) (room : string)
  : Handler unit :=
  emit (socket_broadcast_to socket_id room) (Emit.SIGNAL_OFFER offer socket_id).

Definition on_SIGNAL_ANSWER (socket_id : SocketId) (answer : Json) (room : string)
  : Handler unit :=
  emit (socket_broadcast_to socket_id room) (Emit.SIGNAL_ANSWER answer socket_id).

Definition on_SYNC_FILE_STRUCTURE (socket_id : SocketId) (fileStructure openFiles activeFile : Json)
  : Handler unit :=
  emit (io_to socket_id) (Emit.SYNC_FILE_STRUCTURE fileStructure openFiles activeFile).

(** The directory, file, chat and drawing-request handlers share one shape:
    [const roomId = getRoomId(socket.id); if (!roomId) return;
     socket.broadcast.to(roomId).emit(EVENT, payload)]. *)
Definition relay_to_own_room (socket_id : SocketId) (ev : Emit.t) : Handler unit :=
  room <- read (getRoomId socket_id) ;;
  when_room room (fun room => emit (socket_broadcast_to socket_id room) ev).

Definition on_USER_OFFLINE (socket_id : SocketId) (id : SocketId) : Handler unit :=
  reg <- read (fun reg => reg) ;;
  assign (map_matching id (with_status OFFLINE) reg) ;;
  room <- read (getRoomId id) ;;
  when_room room (fun room =>
    emit (socket_broadcast_to socket_id room) (Emit.USER_OFFLINE id)).

Definition on_USER_ONLINE (socket_id : SocketId) (id : SocketId) : Handler unit :=
  reg <- read (fun reg => reg) ;;
  assign (map_matching id (with_status ONLINE) reg) ;;
  room <- read (getRoomId id) ;;
  when_room room (fun room =>
    emit (socket_broadcast_to socket_id room) (Emit.USER_ONLINE id)).

Definition on_TYPING_START (socket_id : SocketId) (pos : Z) : Handler unit :=
  reg <- read (fun reg => reg) ;;
  assign (map_matching socket_id (with_typing_at pos) reg) ;;
  user <- read (getUserBySocketId socket_id) ;;
  when_user user (fun user =>
    emit (socket_broadcast_to socket_id user.(roomId)) (Emit.TYPING_START user)).

Definition on_TYPING_PAUSE (socket_id : SocketId) : Handler unit :=
  reg <- read (fun reg => reg) ;;
  assign (map_matching socket_id with_typing_off reg) ;;
  user <- read (getUserBySocketId socket_id) ;;
  when_user user (fun user =>
    emit (socket_broadcast_to socket_id user.(roomId)) (Emit.TYPING_PAUSE user)).

Definition on_SYNC_DRAWING (socket_id : SocketId) (drawingData : Json) (id : SocketId)
  : Handler unit :=
  emit (socket_broadcast_to socket_id id) (Emit.SYNC_DRAWING drawingData).

(** The dispatch [socket.on] sets up. *)
Definition on (socket_id : SocketId) (ev : Recv.t) : Handler unit :=
  match ev with
  | Recv.JOIN_REQUEST room name => on_JOIN_REQUEST socket_id room name
  | Recv.SIGNAL_ICE_CANDIDATE candidate room _ => on_SIGNAL_ICE_CANDIDATE socket_id candidate room
  | Recv.SIGNAL_OFFER offer room _ => on_SIGNAL_OFFER socket_id offer room
  | Recv.SIGNAL_ANSWER answer room _ => on_SIGNAL_ANSWER socket_id answer room
  | Recv.SYNC_FILE_STRUCTURE fileStructure openFiles activeFile =>
      on_SYNC_FILE_STRUCTURE socket_id fileStructure openFiles activeFile
  | Recv.DIRECTORY_CREATED parentDirId newDirectory =>
      relay_to_own_room socket_id (Emit.DIRECTORY_CREATED parentDirId newDirectory)
  | Recv.DIRECTORY_UPDATED dirId children =>
      relay_to_own_room socket_id (Emit.DIRECTORY_UPDATED dirId children)
  | Recv.DIRECTORY_RENAMED dirId newName =>
      relay_to_own_room socket_id (Emit.DIRECTORY_RENAMED dirId newName)
  | Recv.DIRECTORY_DELETED dirId =>
      relay_to_own_room socket_id (Emit.DIRECTORY_DELETED dirId)
  | Recv.FILE_CREATED parentDirId newFile =>
      relay_to_own_room socket_id (Emit.FILE_CREATED parentDirId newFile)
  | Recv.FILE_UPDATED fileId newContent =>
      relay_to_own_room socket_id (Emit.FILE_UPDATED fileId newContent)
  | Recv.FILE_RENAMED fileId newName =>
      relay_to_own_room socket_id (Emit.FILE_RENAMED fileId newName)
  | Recv.FILE_DELETED fileId =>
      relay_to_own_room socket_id (Emit.FILE_DELETED fileId)
  | Recv.USER_OFFLINE id => on_USER_OFFLINE socket_id id
  | Recv.USER_ONLINE id => on_USER_ONLINE socket_id id
  | Recv.SEND_MESSAGE message =>
      relay_to_own_room socket_id (Emit.RECEIVE_MESSAGE message)
  | Recv.TYPING_START pos => on_TYPING_START socket_id pos
  | Recv.TYPING_PAUSE => on_TYPING_PAUSE socket_id
  | Recv.REQUEST_DRAWING =>
      relay_to_own_room socket_id (Emit.REQUEST_DRAWING socket_id)
  | Recv.SYNC_DRAWING drawingData id => on_SYNC_DRAWING socket_id drawingData id
  end.

(** ** The transport around the handlers

    What happens to the server, one input at a time: a connection opens (its
    socket enters the room named by its id), a client's event arrives, or a
    connection closes (the ["disconnecting"] handler runs, then the socket
    leaves every room). *)
Inductive Input :=
| connection (socket_id : SocketId)
| message (socket_id : SocketId) (ev : Recv.t)
| disconnect (socket_id : SocketId).

Definition step (i : Input) : Handler unit :=
  match i with
  | connection socket_id =>
      fun s => (tt, mkServer s.(userSocketMap) (table_add socket_id socket_id s.(rooms)), [])
  | message socket_id ev => on socket_id ev
  | disconnect socket_id =>
      on_disconnecting socket_id ;;
      (fun s => (tt, mkServer s.(userSocketMap) (table_delAll socket_id s.(rooms)), []))
  end.

Fixpoint run (trace : list Input) : Handler unit :=
  match trace with
  | [] => ret tt
  | i :: rest => step i ;; run rest
  end.

(** State and effects of a handler run. *)
Definition state_after {A : Type} (m : Handler A) (s : Server) : Server := snd (fst (m s)).
Definition effects_of {A : Type} (m : Handler A) (s : Server) : list Effect := snd (m s).

(** The log as the clients see it: one (receiver, event) pair per delivered
    copy, in emission order. *)
Fixpoint deliveries (log : list Effect) : list (SocketId * Emit.t) :=
  match log with
  | [] => []
  | Emitted _ ev to :: rest => map (fun id => (id, ev)) to ++ deliveries rest
  | _ :: rest => deliveries rest
  end.

(** ** Concrete scenarios used below *)

Definition alice : User := newUser "A" "R" "a".
Definition bob : User := newUser "B" "R" "b".
Definition carol : User := newUser "C" "R" "c".

(** Three connections; the first two have joined room ["R"], in that order. *)
Definition two_in_room : Server :=
  state_after
    (run [connection "A"; connection "B"; connection "C";
          message "A" (Recv.JOIN_REQUEST "R" "a");
          message "B" (Recv.JOIN_REQUEST "R" "b")])
    initial.

(** The same with the third one in the room as well. *)
Definition three_in_room : Server :=
  state_after (on "C" (Recv.JOIN_REQUEST "R" "c")) two_in_room.

(** One connection in room ["R"] under the name ["alice"], set OFFLINE. *)
Definition alice_offline : Server :=
  state_after
    (run [connection "A"; connection "B";
          message "A" (Recv.JOIN_REQUEST "R" "alice");
          message "A" (Recv.USER_OFFLINE "A")])
    initial.

(** One connection that was admitted twice, under two names. *)
Definition joined_twice : Server :=
  state_after
    (run [connection "A";
          message "A" (Recv.JOIN_REQUEST "R" "a");
          message "A" (Recv.JOIN_REQUEST "R" "b")])
    initial.

(** ** Traces in which no connection joins while it holds a record *)

(** The input is not a join request from a connection that already has a
    record in the registry. *)
Definition joins_afresh (s : Server) (i : Input) : bool :=
  match i with
  | message socket_id (Recv.JOIN_REQUEST _ _) =>
      negb (existsb (fun u => u.(socketId) =? socket_id) s.(userSocketMap))
  | _ => true
  end.

Fixpoint joins_afresh_along (trace : list Input) (s : Server) : bool :=
  match trace with
  | [] => true
  | i :: rest => joins_afresh s i && joins_afresh_along rest (state_after (step i) s)
  end.

(** ** The two status toggles, by the status they set *)

Definition status_request (st : USER_CONNECTION_STATUS) (id : SocketId) : Recv.t :=
  match st with
  | OFFLINE => Recv.USER_OFFLINE id
  | ONLINE => Recv.USER_ONLINE id
  end.

Definition status_notice (st : USER_CONNECTION_STATUS) (id : SocketId) : Emit.t :=
  match st with
  | OFFLINE => Emit.USER_OFFLINE id
  | ONLINE => Emit.USER_ONLINE id
  end.

(** ** The three signaling events, by kind *)

Inductive SignalKind := ICE_CANDIDATE | OFFER | ANSWER.

Definition signal_request (k : SignalKind) (body : Json) (room : string)
    (rest : list (string * Json)) : Recv.t :=
  match k with
  | ICE_CANDIDATE => Recv.SIGNAL_ICE_CANDIDATE body room rest
  | OFFER => Recv.SIGNAL_OFFER body room rest
  | ANSWER => Recv.SIGNAL_ANSWER body room rest
  end.

Definition signal_notice (k : SignalKind) (body : Json) (tag : SocketId) : Emit.t :=
  match k with
  | ICE_CANDIDATE => Emit.SIGNAL_ICE_CANDIDATE body tag
  | OFFER => Emit.SIGNAL_OFFER body tag
  | ANSWER => Emit.SIGNAL_ANSWER body tag
  end.

(** ** Joining and leaving in bulk *)

Definition join_of (room : string) (j : SocketId * string) : Input :=
  message (fst j) (Recv.JOIN_REQUEST room (snd j)).

(** ** Vocabulary for the properties of the remaining handlers *)

(** What a record is known by: its connection, its room and its name. *)
Definition identity (u : User) : SocketId * string * string :=
  (u.(socketId), u.(roomId), u.(username)).

(** The place a record takes in its room: the pair the join handler tests. *)
Definition seat (u : User) : string * string := (u.(roomId), u.(username)).

(** The connection an input belongs to. *)
Definition subject (i : Input) : SocketId :=
  match i with
  | connection socket_id => socket_id
  | message socket_id _ => socket_id
  | disconnect socket_id => socket_id
  end.

(** The ten events whose handlers look up the sender's room with
    [getRoomId(socket.id)] and pass the payload on, with the event each one
    emits. *)
Definition relayed_notice (socket_id : SocketId) (ev : Recv.t) : option Emit.t :=
  match ev with
  | Recv.DIRECTORY_CREATED parentDirId newDirectory =>
      Some (Emit.DIRECTORY_CREATED parentDirId newDirectory)
  | Recv.DIRECTORY_UPDATED dirId children => Some (Emit.DIRECTORY_UPDATED dirId children)
  | Recv.DIRECTORY_RENAMED dirId newName => Some (Emit.DIRECTORY_RENAMED dirId newName)
  | Recv.DIRECTORY_DELETED dirId => Some (Emit.DIRECTORY_DELETED dirId)
  | Recv.FILE_CREATED parentDirId newFile => Some (Emit.FILE_CREATED parentDirId newFile)
  | Recv.FILE_UPDATED fileId newContent => Some (Emit.FILE_UPDATED fileId newContent)
  | Recv.FILE_RENAMED fileId newName => Some (Emit.FILE_RENAMED fileId newName)
  | Recv.FILE_DELETED fileId => Some (Emit.FILE_DELETED fileId)
  | Recv.SEND_MESSAGE text => Some (Emit.RECEIVE_MESSAGE text)
  | Recv.REQUEST_DRAWING => Some (Emit.REQUEST_DRAWING socket_id)
  | _ => None
  end.

(** The connection whose record a handler looks up before it emits: the
    sender for the relayed events and the typing events, the connection the
    payload names for the status toggles; [None] for the handlers that never
    consult the registry for a record of a connection. *)
Definition looked_up (socket_id : SocketId) (ev : Recv.t) : option SocketId :=
  match ev with
  | Recv.USER_OFFLINE id => Some id
  | Recv.USER_ONLINE id => Some id
  | Recv.TYPING_START _ => Some socket_id
  | Recv.TYPING_PAUSE => Some socket_id
  | _ => match relayed_notice socket_id ev with
         | Some _ => Some socket_id
         | None => None
         end
  end.

(** The room table and the registry tell the same story: every record's
    connection is a member of the record's room, and every member of a room
    is the connection the room is named after or has a record in that
    room. *)
Definition table_agrees (s : Server) : Prop :=
  (forall u, In u s.(userSocketMap) -> In (u.(roomId), u.(socketId)) s.(rooms)) /\
  (forall r id, In (r, id) s.(rooms) ->
     r = id \/ exists u, In u s.(userSocketMap) /\ u.(socketId) = id /\ u.(roomId) = r).

(** Four connections: ["A"] and ["B"] in room ["R"], ["D"] in room ["Q"],
    ["C"] in no room. *)
Definition two_rooms : Server :=
  state_after
    (run [connection "A"; connection "B"; connection "C"; connection "D";
          message "A" (Recv.JOIN_REQUEST "R" "a");
          message "B" (Recv.JOIN_REQUEST "R" "b");
          message "D" (Recv.JOIN_REQUEST "Q" "a")])
    initial.

(** [u] is the first record of connection [id] in the registry, the one a
    search by connection id from the front of the array comes to. *)
Definition first_record (id : SocketId) (reg : list User) (u : User) : Prop :=
  exists before after,
    reg = before ++ u :: after /\
    u.(socketId) = id /\
    ~ In id (map socketId before).

(** Three connections in room ["R"]; ["B"] has also joined the room named by
    ["A"]'s connection id. *)
Definition b_in_room_of_a : Server :=
  state_after (on "B" (Recv.JOIN_REQUEST "A" "b")) three_in_room.

(** ["A"] and ["B"] in room ["R"], ["C"] connected; ["B"] has also joined the
    room named by ["C"]'s connection id. *)
Definition b_in_room_of_c : Server :=
  state_after (on "B" (Recv.JOIN_REQUEST "C" "b")) two_in_room.

(** ** Proof automation *)

(** Unfold a handler run in [H] down to its explicit effects, splitting on
    every test it makes. *)
Ltac break_handler H :=
  repeat (cbn -[receivers getRoomId getUserBySocketId getUsersInRoom String.eqb room_members table_add] in H;
          match type of H with
          | context [match getUserBySocketId ?a ?b with _ => _ end] =>
              destruct (getUserBySocketId a b)
          | context [match getRoomId ?a ?b with _ => _ end] =>
              destruct (getRoomId a b)
          | context [if existsb ?f ?l then _ else _] =>
              destruct (existsb f l)
          | context [if (?r =? ?e) then _ else _] =>
              destruct (r =? e)
          end);
  cbn -[receivers getRoomId getUserBySocketId getUsersInRoom String.eqb room_members table_add] in H.

Ltac echo_cases :=
  repeat match goal with
         | H : _ \/ _ |- _ => destruct H as [H | H]
         | H : False |- _ => destruct H
         | H : Emitted _ _ _ = Emitted _ _ _ |- _ => inversion H; subst; clear H
         | H : _ = Emitted _ _ _ |- _ => discriminate H
         end.

(** * Properties *)

(** ** The room table *)

Lemma room_members_app (room : string) (t1 t2 : RoomTable) :
  room_members room (t1 ++ t2) = room_members room t1 ++ room_members room t2.
Proof.
  unfold room_members. now rewrite filter_app, map_app.
Qed.

Lemma is_member_iff (room : string) (id : SocketId) (table : RoomTable) :
  existsb (same_entry room id) table = true <-> In id (room_members room table).
Proof.
  unfold room_members, same_entry. rewrite existsb_exists, in_map_iff. split.
  - intros [[r i] [Hin H]]. simpl in H.
    apply andb_true_iff in H as [Hr Hi].
    apply String.eqb_eq in Hi. subst i.
    exists (r, id). split; [reflexivity |]. apply filter_In. now split.
  - intros [[r i] [Hi Hin]]. simpl in Hi. subst i.
    apply filter_In in Hin as [Hin Hr]. simpl in Hr.
    exists (r, id). split; [exact Hin |]. simpl.
    now rewrite Hr, String.eqb_refl.
Qed.

Lemma room_members_add_other (room room' : string) (id : SocketId) (table : RoomTable) :
  room <> room' ->
  room_members room (table_add id room' table) = room_members room table.
Proof.
  intros Hne. unfold table_add.
  destruct (existsb (same_entry room' id) table); [reflexivity |].
  rewrite room_members_app. unfold room_members at 2. simpl.
  destruct (String.eqb_spec room' room) as [E | _].
  - now subst.
  - simpl. apply app_nil_r.
Qed.

Lemma room_members_add_new (room : string) (id : SocketId) (table : RoomTable) :
  ~ In id (room_members room table) ->
  room_members room (table_add id room table) = room_members room table ++ [id].
Proof.
  intros Hnot. unfold table_add.
  destruct (existsb (same_entry room id) table) eqn:E.
  - apply is_member_iff in E. contradiction.
  - rewrite room_members_app. unfold room_members at 2. simpl.
    now rewrite String.eqb_refl.
Qed.

Lemma excepted_iff (socket_id id : SocketId) (table : RoomTable) :
  excepted socket_id table id = true <-> In id (room_members socket_id table).
Proof.
  unfold excepted. rewrite existsb_exists. split.
  - intros [y [Hy E]]. apply String.eqb_eq in E. now subst y.
  - intros H. exists id. split; [exact H | apply String.eqb_refl].
Qed.

(** A broadcast reaches the members of the room that are not members of the
    room named by the id of the socket it is called on. *)
Lemma broadcast_receivers (socket_id id : SocketId) (room : string) (table : RoomTable) :
  In id (receivers (socket_broadcast_to socket_id room) table) <->
  In id (room_members room table) /\ ~ In id (room_members socket_id table).
Proof.
  simpl. rewrite filter_In, negb_true_iff, <- not_true_iff_false, excepted_iff. tauto.
Qed.

(** A broadcast never reaches the socket it is called on, as long as that
    socket is in the room of its own id (where socket.io puts it when it
    connects). *)
Lemma broadcast_excludes_sender (socket_id : SocketId) (room : string) (table : RoomTable) :
  In socket_id (room_members socket_id table) ->
  ~ In socket_id (receivers (socket_broadcast_to socket_id room) table).
Proof.
  intros Hown H. apply broadcast_receivers in H as [_ H]. contradiction.
Qed.

(** With the socket alone in the room of its id, the broadcast leaves out
    the socket and nobody else. *)
Lemma broadcast_alone (socket_id : SocketId) (room : string) (table : RoomTable) :
  room_members socket_id table = [socket_id] ->
  receivers (socket_broadcast_to socket_id room) table =
    filter (fun id => negb (id =? socket_id)) (room_members room table).
Proof.
  intros Hown. simpl. unfold excepted. rewrite Hown. apply filter_ext.
  intros id. simpl. now rewrite orb_false_r.
Qed.

Lemma in_deliveries_single (via : Target) (n e : Emit.t) (to : list SocketId)
    (x : SocketId) :
  In (x, e) (deliveries [Emitted via n to]) <-> e = n /\ In x to.
Proof.
  simpl. rewrite app_nil_r, in_map_iff. split.
  - intros [y [E Hy]]. injection E as -> ->. auto.
  - intros [-> Hx]. now exists x.
Qed.

Lemma in_room_members_table (room : string) (id : SocketId) (table : RoomTable) :
  In id (room_members room table) <-> In (room, id) table.
Proof.
  unfold room_members. rewrite in_map_iff. split.
  - intros [[r i] [E H]]. simpl in E. subst i.
    apply filter_In in H as [H Hr]. simpl in Hr.
    apply String.eqb_eq in Hr. now subst r.
  - intros H. exists (room, id). split; [reflexivity |].
    apply filter_In. split; [exact H |]. apply String.eqb_refl.
Qed.

Lemma in_table_add (e : string * SocketId) (id : SocketId) (room : string)
    (table : RoomTable) :
  In e (table_add id room table) <-> In e table \/ e = (room, id).
Proof.
  unfold table_add. destruct (existsb (same_entry room id) table) eqn:E.
  - split; [auto |]. intros [H | ->]; [exact H |].
    apply existsb_exists in E as [[r i] [Hin H]]. unfold same_entry in H. simpl in H.
    apply andb_true_iff in H as [Hr Hi].
    apply String.eqb_eq in Hr, Hi. now subst.
  - rewrite in_app_iff. simpl. intuition.
Qed.

(** ** The registry readers *)

Lemma getUsersInRoom_app (room : string) (l1 l2 : list User) :
  getUsersInRoom room (l1 ++ l2) = getUsersInRoom room l1 ++ getUsersInRoom room l2.
Proof. apply filter_app. Qed.

Lemma in_getUsersInRoom (room : string) (u : User) (reg : list User) :
  In u (getUsersInRoom room reg) <-> In u reg /\ u.(roomId) = room.
Proof.
  unfold getUsersInRoom. now rewrite filter_In, String.eqb_eq.
Qed.

Lemma getUsersInRoom_newUser (socket_id room name : string) :
  getUsersInRoom room [newUser socket_id room name] = [newUser socket_id room name].
Proof.
  unfold getUsersInRoom. simpl. now rewrite String.eqb_refl.
Qed.

(** The join handler's test, as a statement about the registry. *)
Lemma isUsernameExist_iff (room name : string) (reg : list User) :
  existsb (fun user => user.(username) =? name) (getUsersInRoom room reg) = true <->
  exists u, In u reg /\ u.(roomId) = room /\ u.(username) = name.
Proof.
  rewrite existsb_exists. split.
  - intros [u [Hin Hn]]. apply in_getUsersInRoom in Hin as [Hin Hr].
    apply String.eqb_eq in Hn. now exists u.
  - intros [u [Hin [Hr Hn]]]. exists u. split.
    + now apply in_getUsersInRoom.
    + now apply String.eqb_eq.
Qed.

Lemma getUserBySocketId_some (id : SocketId) (reg : list User) (u : User) :
  getUserBySocketId id reg = Some u -> In u reg /\ u.(socketId) = id.
Proof.
  intros H. apply find_some in H as [Hin H]. now apply String.eqb_eq in H.
Qed.

Lemma getUserBySocketId_none (id : SocketId) (reg : list User) :
  getUserBySocketId id reg = None <-> ~ In id (map socketId reg).
Proof.
  unfold getUserBySocketId. split.
  - intros H Hin. apply in_map_iff in Hin as [u [E Hin]].
    pose proof (find_none _ _ H u Hin) as Hu. simpl in Hu.
    now rewrite E, String.eqb_refl in Hu.
  - intros H. destruct (find _ reg) as [u |] eqn:E; [| reflexivity].
    apply find_some in E as [Hin E]. apply String.eqb_eq in E.
    exfalso. apply H. apply in_map_iff. now exists u.
Qed.

Lemma first_record_iff (id : SocketId) (reg : list User) (u : User) :
  first_record id reg u <-> getUserBySocketId id reg = Some u.
Proof.
  unfold first_record, getUserBySocketId. split.
  - intros [before [after [-> [Hid Hnot]]]].
    induction before as [| v before IH]; simpl.
    + apply String.eqb_eq in Hid. now rewrite Hid.
    + simpl in Hnot. destruct (String.eqb_spec v.(socketId) id) as [E | _].
      * exfalso. apply Hnot. now left.
      * apply IH. intros H. apply Hnot. now right.
  - induction reg as [| v reg IH]; simpl; [discriminate |].
    destruct (String.eqb_spec v.(socketId) id) as [E | Hne].
    + intros H. injection H as <-. exists [], reg. simpl. auto.
    + intros H. destruct (IH H) as [before [after [-> [Hid Hnot]]]].
      exists (v :: before), after. simpl. split; [reflexivity |].
      split; [exact Hid |]. intros [E | Hin]; contradiction.
Qed.

(** ** What the join handler does in each branch *)

Lemma on_JOIN_REQUEST_taken (s : Server) (socket_id room name : string) :
  existsb (fun user => user.(username) =? name)
          (getUsersInRoom room s.(userSocketMap)) = true ->
  on_JOIN_REQUEST socket_id room name s =
    (tt, s, [Emitted (io_to socket_id) Emit.USERNAME_EXISTS
                     (room_members socket_id s.(rooms))]).
Proof.
  intros H. unfold on_JOIN_REQUEST, bind, read, emit. now rewrite H.
Qed.

Lemma on_JOIN_REQUEST_free (s : Server) (socket_id room name : string) :
  existsb (fun user => user.(username) =? name)
          (getUsersInRoom room s.(userSocketMap)) = false ->
  on_JOIN_REQUEST socket_id room name s =
    (tt,
     mkServer (s.(userSocketMap) ++ [newUser socket_id room name])
              (table_add socket_id room s.(rooms)),
     [Assigned (s.(userSocketMap) ++ [newUser socket_id room name]);
      Joined socket_id room;
      Emitted (socket_broadcast_to socket_id room)
              (Emit.USER_JOINED (newUser socket_id room name))
              (receivers (socket_broadcast_to socket_id room)
                         (table_add socket_id room s.(rooms)));
      Emitted (io_to socket_id)
              (Emit.JOIN_ACCEPTED (newUser socket_id room name)
                 (getUsersInRoom room s.(userSocketMap) ++ [newUser socket_id room name]))
              (room_members socket_id (table_add socket_id room s.(rooms)))]).
Proof.
  intros H. unfold on_JOIN_REQUEST, bind, read, emit, assign, socket_join.
  rewrite H. cbn [userSocketMap rooms app].
  now rewrite getUsersInRoom_app, getUsersInRoom_newUser.
Qed.

(** ** Joining *)

(** C1 (as amended).  Room [R] holds exactly the records [a] and [b], in that
    order, their connections are the members of socket.io's room [R], and
    connection [C] (another one, alone in the room named by its id) asks to
    join [R] under a name neither of them has.  Then the clients see exactly
    three deliveries: USER_JOINED with [C]'s new record to [a]'s connection,
    the same to [b]'s, and JOIN_ACCEPTED to [C], whose [user] is [C]'s record
    and whose [users] is the room as it is after the admission:
    [a], [b] and then [C]'s own record. *)
Theorem join_request_roster (s : Server) (C R name : string) (a b : User) :
  getUsersInRoom R s.(userSocketMap) = [a; b] ->
  room_members R s.(rooms) = [a.(socketId); b.(socketId)] ->
  room_members C s.(rooms) = [C] ->
  C <> a.(socketId) ->
  C <> b.(socketId) ->
  a.(username) <> name ->
  b.(username) <> name ->
  let c := {| username := name; roomId := R; status := ONLINE; cursorPosition := 0;
              typing := false; socketId := C; currentFile := None |} in
  deliveries (effects_of (on C (Recv.JOIN_REQUEST R name)) s) =
    [(a.(socketId), Emit.USER_JOINED c);
     (b.(socketId), Emit.USER_JOINED c);
     (C, Emit.JOIN_ACCEPTED c [a; b; c])].
Proof.
  intros Hreg Hroom Hown HCa HCb Hna Hnb c.
  assert (HRC : C <> R).
  { intros E. subst R. rewrite Hown in Hroom. discriminate. }
  assert (Hfree : existsb (fun user => user.(username) =? name)
                          (getUsersInRoom R s.(userSocketMap)) = false).
  { rewrite Hreg. simpl.
    apply String.eqb_neq in Hna, Hnb. now rewrite Hna, Hnb. }
  unfold effects_of. simpl on. rewrite (on_JOIN_REQUEST_free _ _ _ _ Hfree).
  cbn [snd deliveries].
  rewrite broadcast_alone
    by (rewrite room_members_add_other by exact HRC; exact Hown).
  rewrite room_members_add_new by (rewrite Hroom; simpl; intuition congruence).
  rewrite room_members_add_other by exact HRC.
  rewrite Hroom, Hown, Hreg. cbn [app filter].
  apply not_eq_sym in HCa, HCb.
  apply String.eqb_neq in HCa, HCb.
  rewrite HCa, HCb, String.eqb_refl. reflexivity.
Qed.

(** The scenario of C1 on three concrete connections. *)
Lemma join_request_roster_witness :
  deliveries (effects_of (on "C" (Recv.JOIN_REQUEST "R" "c")) two_in_room) =
    [("A", Emit.USER_JOINED carol);
     ("B", Emit.USER_JOINED carol);
     ("C", Emit.JOIN_ACCEPTED carol [alice; bob; carol])].
Proof.
  apply (join_request_roster two_in_room "C" "R" "c" alice bob);
    try reflexivity; simpl; discriminate.
Defined.

(** C1 as the specification words it fails: with [a] and [b] in the room, the
    roster that the newcomer receives is not [[a; b]]. *)
Lemma join_roster_counterexample :
  getUsersInRoom "R" two_in_room.(userSocketMap) = [alice; bob] /\
  room_members "R" two_in_room.(rooms) = ["A"; "B"] /\
  deliveries (effects_of (on "C" (Recv.JOIN_REQUEST "R" "c")) two_in_room) <>
    [("A", Emit.USER_JOINED carol);
     ("B", Emit.USER_JOINED carol);
     ("C", Emit.JOIN_ACCEPTED carol [alice; bob])].
Proof.
  split; [reflexivity |]. split; [reflexivity |].
  vm_compute. intros H. discriminate H.
Qed.

(** Why C1 asks for the newcomer to be alone in the room of its id: with
    ["B"] in the room named by ["C"]'s connection id, ["C"]'s join is
    announced to ["A"] only, and its JOIN_ACCEPTED reaches ["B"] too. *)
Example join_replies_overheard :
  getUsersInRoom "R" b_in_room_of_c.(userSocketMap) = [alice; bob] /\
  room_members "R" b_in_room_of_c.(rooms) = ["A"; "B"] /\
  deliveries (effects_of (on "C" (Recv.JOIN_REQUEST "R" "c")) b_in_room_of_c) =
    [("A", Emit.USER_JOINED carol);
     ("C", Emit.JOIN_ACCEPTED carol [alice; bob; carol]);
     ("B", Emit.JOIN_ACCEPTED carol [alice; bob; carol])].
Proof. repeat split. Qed.

(** C2 (as amended).  A join request is answered with USERNAME_EXISTS exactly
    when some record of the room has the requested name, whatever that
    record's status; when none has, the registry gains, at its end, a record
    with the requested name and room, the requester's connection id, status
    ONLINE, cursor position 0, typing false and no current file, and the
    requester is sent JOIN_ACCEPTED with that record. *)
Theorem join_request_admission (s : Server) (socket_id R name : string) :
  let taken := exists u, In u s.(userSocketMap) /\ u.(roomId) = R /\ u.(username) = name in
  let rejected := exists to,
    effects_of (on socket_id (Recv.JOIN_REQUEST R name)) s =
      [Emitted (io_to socket_id) Emit.USERNAME_EXISTS to] in
  let record := {| username := name; roomId := R; status := ONLINE; cursorPosition := 0;
                   typing := false; socketId := socket_id; currentFile := None |} in
  (taken <-> rejected) /\
  (~ taken ->
   userSocketMap (state_after (on socket_id (Recv.JOIN_REQUEST R name)) s) =
     s.(userSocketMap) ++ [record] /\
   exists users to,
     In (Emitted (io_to socket_id) (Emit.JOIN_ACCEPTED record users) to)
        (effects_of (on socket_id (Recv.JOIN_REQUEST R name)) s)).
Proof.
  intros taken rejected record. subst taken rejected record.
  unfold effects_of, state_after. simpl on.
  destruct (existsb (fun user => user.(username) =? name)
                    (getUsersInRoom R s.(userSocketMap))) eqn:E.
  - rewrite (on_JOIN_REQUEST_taken _ _ _ _ E). simpl.
    apply isUsernameExist_iff in E. split.
    + split; [eauto | easy].
    + intros H. contradiction.
  - rewrite (on_JOIN_REQUEST_free _ _ _ _ E). cbn [fst snd userSocketMap]. split.
    + split.
      * intros H. apply isUsernameExist_iff in H. congruence.
      * intros [to H]. discriminate H.
    + intros _. split; [reflexivity |].
      eexists. eexists. do 3 right. left. reflexivity.
Qed.

(** C2 as the specification words it fails: the only record of the room is
    OFFLINE, so no ONLINE participant has the name, and the request for that
    name is rejected all the same. *)
Lemma offline_name_counterexample :
  getUsersInRoom "R" alice_offline.(userSocketMap) =
    [{| username := "alice"; roomId := "R"; status := OFFLINE; cursorPosition := 0;
        typing := false; socketId := "A"; currentFile := None |}] /\
  on "B" (Recv.JOIN_REQUEST "R" "alice") alice_offline =
    (tt, alice_offline, [Emitted (io_to "B") Emit.USERNAME_EXISTS ["B"]]).
Proof. split; reflexivity. Qed.

(** C3 (as amended).  A join request for a name that a record of the room
    already has leaves the server exactly as it was (same registry, same
    room table) and its only effect is one USERNAME_EXISTS emitted through
    [io.to(socket.id)]: nothing is broadcast to the room.  The notice is
    delivered to the members of the room named by the requester's connection
    id, whoever they are: to the requester alone when it has that room to
    itself, as socket.io sets it up. *)
Theorem join_rejection_is_atomic (s : Server) (socket_id R name : string) :
  (exists u, In u s.(userSocketMap) /\ u.(roomId) = R /\ u.(username) = name) ->
  on socket_id (Recv.JOIN_REQUEST R name) s =
    (tt, s, [Emitted (io_to socket_id) Emit.USERNAME_EXISTS
                     (room_members socket_id s.(rooms))]) /\
  (forall x e,
     In (x, e) (deliveries (effects_of (on socket_id (Recv.JOIN_REQUEST R name)) s)) <->
     e = Emit.USERNAME_EXISTS /\ In x (room_members socket_id s.(rooms))) /\
  (room_members socket_id s.(rooms) = [socket_id] ->
   deliveries (effects_of (on socket_id (Recv.JOIN_REQUEST R name)) s) =
     [(socket_id, Emit.USERNAME_EXISTS)]).
Proof.
  intros H. apply isUsernameExist_iff in H.
  unfold effects_of. simpl on. rewrite (on_JOIN_REQUEST_taken _ _ _ _ H).
  split; [reflexivity |]. split.
  - intros x e. cbn [snd]. apply in_deliveries_single.
  - intros Hown. simpl. now rewrite Hown.
Qed.

(** C3 on a concrete collision: ["C"] asks for the name ["a"] is using. *)
Lemma join_rejection_is_atomic_witness :
  on "C" (Recv.JOIN_REQUEST "R" "a") two_in_room =
    (tt, two_in_room, [Emitted (io_to "C") Emit.USERNAME_EXISTS ["C"]]) /\
  deliveries (effects_of (on "C" (Recv.JOIN_REQUEST "R" "a")) two_in_room) =
    [("C", Emit.USERNAME_EXISTS)].
Proof.
  destruct (join_rejection_is_atomic two_in_room "C" "R" "a") as [H1 [_ H2]].
  - exists alice. repeat split; simpl; auto.
  - split; [exact H1 | apply H2; reflexivity].
Defined.

(** C3 as the specification words it fails: ["B"] has joined the room named
    by ["C"]'s connection id, and the rejection of ["C"]'s request is
    delivered to ["B"] as well as to ["C"]. *)
Lemma rejection_overheard_counterexample :
  getUsersInRoom "R" b_in_room_of_c.(userSocketMap) = [alice; bob] /\
  room_members "C" b_in_room_of_c.(rooms) = ["C"; "B"] /\
  deliveries (effects_of (on "C" (Recv.JOIN_REQUEST "R" "a")) b_in_room_of_c) =
    [("C", Emit.USERNAME_EXISTS); ("B", Emit.USERNAME_EXISTS)].
Proof. repeat split. Qed.

(** ** Running traces *)

Lemma state_after_bind {A B : Type} (m : Handler A) (k : A -> Handler B) (s : Server) :
  state_after (bind m k) s = state_after (k (fst (fst (m s)))) (state_after m s).
Proof.
  unfold state_after, bind.
  destruct (m s) as [[a s1] l1]. simpl.
  destruct (k a s1) as [[b s2] l2]. reflexivity.
Qed.

Lemma state_after_run_cons (i : Input) (rest : list Input) (s : Server) :
  state_after (run (i :: rest)) s = state_after (run rest) (state_after (step i) s).
Proof. simpl run. now rewrite state_after_bind. Qed.

Lemma state_after_run_app (t1 t2 : list Input) (s : Server) :
  state_after (run (t1 ++ t2)) s = state_after (run t2) (state_after (run t1) s).
Proof.
  revert s. induction t1 as [| i t1 IH]; intros s.
  - reflexivity.
  - rewrite <- app_comm_cons, !state_after_run_cons. apply IH.
Qed.

(** ** What each input does to the registry *)

Lemma registry_after_join (s : Server) (socket_id room name : string) :
  userSocketMap (state_after (on_JOIN_REQUEST socket_id room name) s) =
    if existsb (fun user => user.(username) =? name) (getUsersInRoom room s.(userSocketMap))
    then s.(userSocketMap)
    else s.(userSocketMap) ++ [newUser socket_id room name].
Proof.
  unfold state_after.
  destruct (existsb _ (getUsersInRoom room s.(userSocketMap))) eqn:E.
  - now rewrite (on_JOIN_REQUEST_taken _ _ _ _ E).
  - now rewrite (on_JOIN_REQUEST_free _ _ _ _ E).
Qed.

Lemma filter_all {A : Type} (p : A -> bool) (l : list A) :
  (forall x, In x l -> p x = true) -> filter p l = l.
Proof.
  induction l as [| x l IH]; intros H; simpl.
  - reflexivity.
  - rewrite (H x (or_introl eq_refl)). f_equal. apply IH.
    intros y Hy. apply H. now right.
Qed.

Lemma registry_after_disconnecting (s : Server) (socket_id : SocketId) :
  userSocketMap (state_after (on_disconnecting socket_id) s) =
    filter (fun u => negb (u.(socketId) =? socket_id)) s.(userSocketMap).
Proof.
  unfold state_after, on_disconnecting, bind, read, when_user.
  destruct (getUserBySocketId socket_id s.(userSocketMap)) as [u |] eqn:E.
  - reflexivity.
  - simpl. symmetry. apply filter_all. intros x Hx.
    pose proof (find_none _ _ E x Hx) as Hn. simpl in Hn. now rewrite Hn.
Qed.

Lemma registry_after_disconnect (s : Server) (socket_id : SocketId) :
  userSocketMap (state_after (step (disconnect socket_id)) s) =
    filter (fun u => negb (u.(socketId) =? socket_id)) s.(userSocketMap).
Proof.
  simpl step. rewrite state_after_bind. unfold state_after at 1. simpl.
  apply registry_after_disconnecting.
Qed.

Lemma state_after_relay (s : Server) (socket_id : SocketId) (ev : Emit.t) :
  state_after (relay_to_own_room socket_id ev) s = s.
Proof.
  unfold state_after, relay_to_own_room, bind, read, when_room.
  destruct (getRoomId socket_id s.(userSocketMap)) as [room |]; [| reflexivity].
  now destruct (room =? "").
Qed.

Lemma state_after_when_room_emit (r : option string) (via : string -> Target)
    (ev : Emit.t) (s : Server) :
  state_after (when_room r (fun room => emit (via room) ev)) s = s.
Proof.
  destruct r as [room |]; simpl; [| reflexivity].
  now destruct (room =? "").
Qed.

Lemma state_after_when_user_emit (u : option User) (via : User -> Target)
    (ev : User -> Emit.t) (s : Server) :
  state_after (when_user u (fun user => emit (via user) (ev user))) s = s.
Proof. now destruct u. Qed.

Lemma registry_after_status (s : Server) (socket_id id : SocketId)
    (st : USER_CONNECTION_STATUS) :
  userSocketMap (state_after (on socket_id (status_request st id)) s) =
    map_matching id (with_status st) s.(userSocketMap).
Proof.
  destruct st; simpl on; unfold on_USER_OFFLINE, on_USER_ONLINE;
    rewrite !state_after_bind;
    rewrite (state_after_when_room_emit _ (socket_broadcast_to socket_id));
    reflexivity.
Qed.

Lemma registry_after_typing_start (s : Server) (socket_id : SocketId) (pos : Z) :
  userSocketMap (state_after (on_TYPING_START socket_id pos) s) =
    map_matching socket_id (with_typing_at pos) s.(userSocketMap).
Proof.
  unfold on_TYPING_START. rewrite !state_after_bind.
  rewrite (state_after_when_user_emit _
             (fun user => socket_broadcast_to socket_id user.(roomId)) Emit.TYPING_START).
  reflexivity.
Qed.

Lemma registry_after_typing_pause (s : Server) (socket_id : SocketId) :
  userSocketMap (state_after (on_TYPING_PAUSE socket_id) s) =
    map_matching socket_id with_typing_off s.(userSocketMap).
Proof.
  unfold on_TYPING_PAUSE. rewrite !state_after_bind.
  rewrite (state_after_when_user_emit _
             (fun user => socket_broadcast_to socket_id user.(roomId)) Emit.TYPING_PAUSE).
  reflexivity.
Qed.

Lemma map_socketId_map_matching (id : SocketId) (f : User -> User) (reg : list User) :
  (forall u, (f u).(socketId) = u.(socketId)) ->
  map socketId (map_matching id f reg) = map socketId reg.
Proof.
  intros Hf. unfold map_matching. rewrite map_map. apply map_ext.
  intros u. destruct (u.(socketId) =? id); [apply Hf | reflexivity].
Qed.

(** Dropping records keeps the connection ids of the registry distinct. *)
Lemma NoDup_ids_filter (keep : User -> bool) (reg : list User) :
  NoDup (map socketId reg) -> NoDup (map socketId (filter keep reg)).
Proof.
  intros Hnd. induction reg as [| u reg IH]; simpl in *.
  - constructor.
  - apply NoDup_cons_iff in Hnd as [Hu Hreg].
    destruct (keep u); simpl; [| now apply IH].
    constructor; [| now apply IH].
    intros Hin. apply Hu. apply in_map_iff in Hin as [v [E Hv]].
    apply filter_In in Hv as [Hv _]. rewrite <- E. now apply in_map.
Qed.

(** The connection ids of the registry after one input: unchanged, or
    filtered by a disconnect, or extended by an admitted join. *)
Lemma ids_after_step (i : Input) (s : Server) :
  let ids := map socketId s.(userSocketMap) in
  let ids' := map socketId (userSocketMap (state_after (step i) s)) in
  ids' = ids \/
  (exists socket_id, i = disconnect socket_id /\
     ids' = map socketId (filter (fun u => negb (u.(socketId) =? socket_id))
                                 s.(userSocketMap))) \/
  (exists socket_id room name,
     i = message socket_id (Recv.JOIN_REQUEST room name) /\ ids' = ids ++ [socket_id]).
Proof.
  intros ids ids'. subst ids ids'.
  destruct i as [socket_id | socket_id ev | socket_id].
  - left. reflexivity.
  - destruct ev; simpl step; simpl on;
      try (left; now rewrite state_after_relay);
      try (left; reflexivity).
    + rewrite registry_after_join.
      destruct (existsb _ _); [now left |].
      right. right.
      match goal with
      | |- context [newUser ?a ?b ?c] => exists a, b, c
      end.
      split; [reflexivity |]. now rewrite map_app.
    + left.
      match goal with
      | |- context [on_USER_OFFLINE ?a ?b] =>
          let E := fresh in
          pose proof (registry_after_status s a b OFFLINE) as E;
          cbn [on status_request] in E; rewrite E
      end.
      now apply map_socketId_map_matching.
    + left.
      match goal with
      | |- context [on_USER_ONLINE ?a ?b] =>
          let E := fresh in
          pose proof (registry_after_status s a b ONLINE) as E;
          cbn [on status_request] in E; rewrite E
      end.
      now apply map_socketId_map_matching.
    + left. rewrite registry_after_typing_start.
      now apply map_socketId_map_matching.
    + left. rewrite registry_after_typing_pause.
      now apply map_socketId_map_matching.
  - right. left. exists socket_id. split; [reflexivity |].
    now rewrite registry_after_disconnect.
Qed.

Lemma NoDup_ids_step (i : Input) (s : Server) :
  joins_afresh s i = true ->
  NoDup (map socketId s.(userSocketMap)) ->
  NoDup (map socketId (userSocketMap (state_after (step i) s))).
Proof.
  intros Hfresh Hnd.
  destruct (ids_after_step i s) as [E | [[sid [Hi E]] | [sid [room [name [Hi E]]]]]];
    rewrite E.
  - exact Hnd.
  - now apply NoDup_ids_filter.
  - subst i. simpl in Hfresh. apply negb_true_iff in Hfresh.
    apply NoDup_app; [exact Hnd | repeat constructor; intros [] | ].
    intros x Hx [Hs | []]. subst x.
    apply in_map_iff in Hx as [u [Eu Hu]].
    assert (Hex : existsb (fun u => u.(socketId) =? sid) s.(userSocketMap) = true).
    { apply existsb_exists. exists u. split; [exact Hu |]. now apply String.eqb_eq. }
    congruence.
Qed.

Lemma NoDup_ids_run (trace : list Input) (s : Server) :
  joins_afresh_along trace s = true ->
  NoDup (map socketId s.(userSocketMap)) ->
  NoDup (map socketId (userSocketMap (state_after (run trace) s))).
Proof.
  revert s. induction trace as [| i rest IH]; intros s Hfresh Hnd.
  - exact Hnd.
  - simpl in Hfresh. apply andb_true_iff in Hfresh as [Hi Hrest].
    rewrite state_after_run_cons. apply IH; [exact Hrest |].
    now apply NoDup_ids_step.
Qed.

(** ** One record per connection *)

(** C4 (as amended).  Along every sequence of inputs, from the empty server,
    in which no connection sends a join request while the registry holds a
    record of it, every connection id has at most one record in the
    registry. *)
Theorem one_record_per_connection (trace : list Input) :
  joins_afresh_along trace initial = true ->
  NoDup (map socketId (userSocketMap (state_after (run trace) initial))).
Proof.
  intros H. apply NoDup_ids_run; [exact H | constructor].
Qed.

(** C4 on a trace with joins, a rejected join, updates, a disconnect and a
    join by the connection that took the freed name. *)
Lemma one_record_per_connection_witness :
  NoDup (map socketId (userSocketMap (state_after
    (run [connection "A"; connection "B"; connection "C";
          message "A" (Recv.JOIN_REQUEST "R" "a");
          message "B" (Recv.JOIN_REQUEST "R" "a");
          message "B" (Recv.JOIN_REQUEST "R" "b");
          message "A" (Recv.TYPING_START 7);
          message "B" (Recv.USER_OFFLINE "A");
          disconnect "A";
          message "C" (Recv.JOIN_REQUEST "R" "a")])
    initial))).
Proof.
  apply one_record_per_connection. reflexivity.
Defined.

(** C4 as the specification words it fails: the handler admits a second join
    request of the same connection under another name, and the registry then
    holds two records with that connection's id. *)
Lemma two_records_counterexample :
  map socketId
      (userSocketMap (state_after
         (run [connection "A";
               message "A" (Recv.JOIN_REQUEST "R" "a");
               message "A" (Recv.JOIN_REQUEST "R" "b")])
         initial)) = ["A"; "A"] /\
  ~ NoDup (map socketId joined_twice.(userSocketMap)).
Proof.
  split; [reflexivity |].
  intros H. vm_compute in H. inversion H as [| x l Hx Hl]; subst.
  apply Hx. now left.
Qed.

(** ** Signaling *)

(** C5 (as amended).  An SDP answer [{answer, roomId}] is relayed the way an
    offer is: one [socket.broadcast.to(roomId)] of the answer tagged with the
    sender's connection id.  It is delivered to the members of the room
    [roomId] that are not members of the room named by the sender's
    connection id (the sender itself, and whoever else joined that room),
    and to nobody else; the server's state does not change and the registry
    is not consulted. *)
Theorem signal_answer_goes_to_room (s : Server) (socket_id : SocketId) (answer : Json)
    (room : string) (rest : list (string * Json)) :
  on socket_id (Recv.SIGNAL_ANSWER answer room rest) s =
    (tt, s,
     [Emitted (socket_broadcast_to socket_id room) (Emit.SIGNAL_ANSWER answer socket_id)
              (receivers (socket_broadcast_to socket_id room) s.(rooms))]) /\
  (forall id ev,
     In (id, ev) (deliveries (effects_of (on socket_id (Recv.SIGNAL_ANSWER answer room rest)) s)) <->
     ev = Emit.SIGNAL_ANSWER answer socket_id /\
     In id (room_members room s.(rooms)) /\
     ~ In id (room_members socket_id s.(rooms))).
Proof.
  split; [reflexivity |].
  intros id ev. unfold effects_of. simpl on. unfold on_SIGNAL_ANSWER, emit. cbn [snd].
  now rewrite in_deliveries_single, broadcast_receivers.
Qed.

(** C5 as the specification words it fails: with three connections in the
    room, an answer sent by one of them reaches both of the others. *)
Lemma signal_answer_counterexample :
  room_members "R" three_in_room.(rooms) = ["A"; "B"; "C"] /\
  deliveries (effects_of (on "A" (Recv.SIGNAL_ANSWER (JStr "sdp") "R" [])) three_in_room) =
    [("B", Emit.SIGNAL_ANSWER (JStr "sdp") "A");
     ("C", Emit.SIGNAL_ANSWER (JStr "sdp") "A")].
Proof. split; reflexivity. Qed.

(** C10.  Whatever the kind (ICE candidate, offer, answer): the relayed event
    carries the body of the incoming one and, as [socketId], the id of the
    connection it came in on; it is broadcast to the room the payload names
    (delivered to its members other than those of the room named by the
    sender's id); the other properties of the incoming payload, a [socketId]
    among them, have no influence on the outcome; and the registry has none
    either, so all of this holds for a sender without a record. *)
Theorem signaling_tag_is_sender (k : SignalKind) (s : Server) (socket_id : SocketId)
    (body : Json) (room : string) (rest rest' : list (string * Json))
    (registry : list User) :
  on socket_id (signal_request k body room rest) s =
    (tt, s,
     [Emitted (socket_broadcast_to socket_id room) (signal_notice k body socket_id)
              (receivers (socket_broadcast_to socket_id room) s.(rooms))]) /\
  on socket_id (signal_request k body room rest) s =
    on socket_id (signal_request k body room rest') s /\
  effects_of (on socket_id (signal_request k body room rest)) (mkServer registry s.(rooms)) =
    effects_of (on socket_id (signal_request k body room rest)) s /\
  (forall x e,
     In (x, e) (deliveries (effects_of (on socket_id (signal_request k body room rest)) s)) <->
     e = signal_notice k body socket_id /\
     In x (room_members room s.(rooms)) /\
     ~ In x (room_members socket_id s.(rooms))).
Proof.
  destruct k; (split; [reflexivity |]; split; [reflexivity |]; split; [reflexivity |]);
    intros x e; unfold effects_of; simpl on;
    unfold on_SIGNAL_ICE_CANDIDATE, on_SIGNAL_OFFER, on_SIGNAL_ANSWER, emit; cbn [snd];
    now rewrite in_deliveries_single, broadcast_receivers.
Qed.

(** C10 on a sender that never joined: ["C"] is connected but has no record,
    and puts ["A"] as [socketId] in its offer. *)
Lemma signaling_tag_is_sender_witness :
  getUserBySocketId "C" two_in_room.(userSocketMap) = None /\
  deliveries (effects_of
     (on "C" (signal_request OFFER (JStr "sdp") "R" [("socketId", JStr "A")])) two_in_room) =
    [("A", Emit.SIGNAL_OFFER (JStr "sdp") "C"); ("B", Emit.SIGNAL_OFFER (JStr "sdp") "C")].
Proof.
  split; [reflexivity |].
  pose proof (proj1 (signaling_tag_is_sender OFFER two_in_room "C" (JStr "sdp") "R"
                       [("socketId", JStr "A")] [] [])) as H.
  unfold effects_of. rewrite H. reflexivity.
Defined.

(** ** Disconnecting *)




(** ** Echoes *)

(** C7 fails on SYNC_FILE_STRUCTURE: the handler emits through
    [io.to(socket.id)], so the connection that sent the event is its one and
    only receiver. *)
Lemma sync_file_structure_echo :
  deliveries (effects_of
     (on "A" (Recv.SYNC_FILE_STRUCTURE (JStr "tree") (JArr []) JNull)) two_in_room) =
    [("A", Emit.SYNC_FILE_STRUCTURE (JStr "tree") (JArr []) JNull)].
Proof. reflexivity. Qed.

(** Every other emission that could reach its sender is one of the two
    replies of the join handler: whatever else a handler emits goes through
    [socket.broadcast], which leaves out the sender as long as the sender is
    in the room of its own id. *)
Lemma only_replies_reach_sender (s : Server) (socket_id : SocketId) (i : Input)
    (via : Target) (ev : Emit.t) (to : list SocketId) :
  In socket_id (room_members socket_id s.(rooms)) ->
  i = disconnect socket_id \/ (exists e, i = message socket_id e) ->
  In (Emitted via ev to) (effects_of (step i) s) ->
  In socket_id to ->
  via = io_to socket_id /\
  (ev = Emit.USERNAME_EXISTS \/
   (exists user users, ev = Emit.JOIN_ACCEPTED user users) \/
   (exists fileStructure openFiles activeFile,
      ev = Emit.SYNC_FILE_STRUCTURE fileStructure openFiles activeFile)).
Proof.
  intros Hown Hi Hin Hto.
  assert (Hbc : forall room, ~ In socket_id (receivers (socket_broadcast_to socket_id room) s.(rooms)))
    by (intros; now apply broadcast_excludes_sender).
  assert (Hbc' : forall room room',
             ~ In socket_id (receivers (socket_broadcast_to socket_id room)
                                       (table_add socket_id room' s.(rooms)))).
  { intros room room'. apply broadcast_excludes_sender.
    apply in_room_members_table, in_table_add. left. now apply in_room_members_table. }
  destruct Hi as [-> | [e ->]]; [| destruct e];
    unfold effects_of, step, on, on_JOIN_REQUEST, on_disconnecting,
      on_SIGNAL_ICE_CANDIDATE, on_SIGNAL_OFFER, on_SIGNAL_ANSWER,
      on_SYNC_FILE_STRUCTURE, relay_to_own_room, on_USER_OFFLINE, on_USER_ONLINE,
      on_TYPING_START, on_TYPING_PAUSE, on_SYNC_DRAWING,
      bind, read, assign, emit, socket_join, socket_leave, when_room, when_user, ret
      in Hin;
    break_handler Hin; echo_cases;
    try (exfalso; eapply Hbc; eassumption);
    try (exfalso; eapply Hbc'; eassumption);
    (split; [reflexivity | eauto 6]).
Qed.

(** ** Status toggles *)

Lemma getRoomId_map_matching (id id' : SocketId) (f : User -> User) (reg : list User) :
  (forall u, (f u).(socketId) = u.(socketId)) ->
  (forall u, (f u).(roomId) = u.(roomId)) ->
  getRoomId id (map_matching id' f reg) = getRoomId id reg.
Proof.
  intros Hid Hroom. unfold getRoomId, map_matching.
  induction reg as [| u reg IH]; simpl; [reflexivity |].
  destruct (u.(socketId) =? id') eqn:E'.
  - rewrite Hid. destruct (u.(socketId) =? id); [now rewrite Hroom | exact IH].
  - destruct (u.(socketId) =? id); [reflexivity | exact IH].
Qed.

Lemma nth_error_map_matching (id : SocketId) (f : User -> User) (reg : list User)
    (n : nat) (u : User) :
  nth_error reg n = Some u ->
  nth_error (map_matching id f reg) n = Some (if u.(socketId) =? id then f u else u).
Proof.
  intros H. unfold map_matching. rewrite nth_error_map, H. reflexivity.
Qed.

Lemma rooms_after_toggle (s : Server) (sender id : SocketId)
    (st : USER_CONNECTION_STATUS) :
  rooms (state_after (on sender (status_request st id)) s) = s.(rooms).
Proof.
  destruct st; simpl on;
    unfold state_after, on_USER_OFFLINE, on_USER_ONLINE, bind, read, assign, when_room;
    cbn [userSocketMap rooms];
    (destruct (getRoomId id (map_matching id _ s.(userSocketMap))) as [room |];
     [destruct (room =? "") |]); reflexivity.
Qed.

(** C9 (as amended).  USER_OFFLINE and USER_ONLINE act on the connection id
    the payload names, whoever sends them: in the registry every record with
    that id gets the new status and keeps its other six fields, every other
    record is left as it is, no record is added, dropped or moved, and the
    room table is untouched.  Then, when that id has a record (the first one,
    [u], decides the room) and [u]'s room id is not the empty string, the
    toggle is broadcast from the sender's socket to [u]'s room: it is
    delivered to the members of that room that are not members of the room
    named by the sender's connection id, so never to a sender that is in the
    room of its own id.  When the id has no record, or [u]'s room id is the
    empty string, nothing is emitted. *)
Theorem status_toggle_frame (st : USER_CONNECTION_STATUS) (s : Server)
    (sender id : SocketId) :
  let s' := state_after (on sender (status_request st id)) s in
  (forall n u,
     nth_error s.(userSocketMap) n = Some u ->
     nth_error s'.(userSocketMap) n =
       Some (if u.(socketId) =? id
             then {| username := u.(username); roomId := u.(roomId); status := st;
                     cursorPosition := u.(cursorPosition); typing := u.(typing);
                     socketId := u.(socketId); currentFile := u.(currentFile) |}
             else u)) /\
  length s'.(userSocketMap) = length s.(userSocketMap) /\
  s'.(rooms) = s.(rooms) /\
  (forall u,
     first_record id s.(userSocketMap) u ->
     u.(roomId) <> "" ->
     effects_of (on sender (status_request st id)) s =
       [Assigned s'.(userSocketMap);
        Emitted (socket_broadcast_to sender u.(roomId)) (status_notice st id)
                (receivers (socket_broadcast_to sender u.(roomId)) s.(rooms))] /\
     (forall x e,
        In (x, e) (deliveries (effects_of (on sender (status_request st id)) s)) <->
        e = status_notice st id /\
        In x (room_members u.(roomId) s.(rooms)) /\
        ~ In x (room_members sender s.(rooms)))) /\
  (forall u,
     first_record id s.(userSocketMap) u ->
     u.(roomId) = "" ->
     effects_of (on sender (status_request st id)) s = [Assigned s'.(userSocketMap)]) /\
  (~ In id (map socketId s.(userSocketMap)) ->
   effects_of (on sender (status_request st id)) s = [Assigned s.(userSocketMap)] /\
   s'.(userSocketMap) = s.(userSocketMap)) /\
  (In sender (room_members sender s.(rooms)) ->
   forall via ev to,
     In (Emitted via ev to) (effects_of (on sender (status_request st id)) s) ->
     ~ In sender to).
Proof.
  intros s'.
  assert (Hreg : s'.(userSocketMap) = map_matching id (with_status st) s.(userSocketMap))
    by apply registry_after_status.
  assert (Heff : effects_of (on sender (status_request st id)) s =
    Assigned s'.(userSocketMap) ::
    match getRoomId id s.(userSocketMap) with
    | Some room =>
        if room =? "" then []
        else [Emitted (socket_broadcast_to sender room) (status_notice st id)
                      (receivers (socket_broadcast_to sender room) s.(rooms))]
    | None => []
    end).
  { rewrite Hreg.
    rewrite <- (getRoomId_map_matching id id (with_status st) s.(userSocketMap))
      by reflexivity.
    destruct st; unfold effects_of; simpl on;
      unfold on_USER_OFFLINE, on_USER_ONLINE, bind, read, assign, when_room;
      cbn [userSocketMap rooms];
      (destruct (getRoomId id (map_matching id _ s.(userSocketMap))) as [room |];
       [destruct (room =? "") |]); reflexivity. }
  assert (Hroom : forall u, first_record id s.(userSocketMap) u ->
                            getRoomId id s.(userSocketMap) = Some u.(roomId)).
  { intros u Hu. apply first_record_iff in Hu.
    unfold getRoomId. unfold getUserBySocketId in Hu. now rewrite Hu. }
  split; [| split; [| split; [| split; [| split; [| split]]]]].
  - intros n u Hn. rewrite Hreg. now apply nth_error_map_matching.
  - rewrite Hreg. unfold map_matching. apply length_map.
  - subst s'. apply rooms_after_toggle.
  - intros u Hu Hne. rewrite Heff, (Hroom u Hu).
    apply String.eqb_neq in Hne. rewrite Hne. split; [reflexivity |].
    intros x e. cbn [deliveries]. rewrite app_nil_r, in_map_iff. split.
    + intros [y [Ey Hy]]. injection Ey as Ex Ee. subst y e.
      apply broadcast_receivers in Hy. tauto.
    + intros [-> H]. exists x. split; [reflexivity |]. now apply broadcast_receivers.
  - intros u Hu He. rewrite Heff, (Hroom u Hu), He. reflexivity.
  - intros Hn. apply getUserBySocketId_none in Hn.
    assert (E : s'.(userSocketMap) = s.(userSocketMap)).
    { rewrite Hreg. unfold map_matching. rewrite <- (map_id s.(userSocketMap)) at 2.
      apply map_ext_in. intros v Hv.
      pose proof (find_none _ _ Hn v Hv) as F. simpl in F. now rewrite F. }
    split; [| exact E]. rewrite Heff, E.
    unfold getRoomId. unfold getUserBySocketId in Hn. now rewrite Hn.
  - intros Hown via ev to Hin. rewrite Heff in Hin.
    destruct Hin as [Hin | Hin]; [discriminate Hin |].
    destruct (getRoomId id s.(userSocketMap)) as [room |]; [| destruct Hin].
    destruct (room =? ""); [destruct Hin |].
    destruct Hin as [Hin | []]. inversion Hin; subst.
    now apply broadcast_excludes_sender.
Qed.

(** C9 on a room of three: ["B"] sets ["A"] OFFLINE, and the two others of
    the room are told. *)
Lemma status_toggle_frame_witness :
  effects_of (on "B" (Recv.USER_OFFLINE "A")) three_in_room =
    [Assigned [with_status OFFLINE alice; bob; carol];
     Emitted (socket_broadcast_to "B" "R") (Emit.USER_OFFLINE "A") ["A"; "C"]].
Proof.
  apply (proj1 (proj1 (proj2 (proj2 (proj2
           (status_toggle_frame OFFLINE three_in_room "B" "A")))) alice
         (ex_intro _ [] (ex_intro _ [bob; carol]
            (conj eq_refl (conj eq_refl (fun F : False => F)))))
         (fun E => match E with eq_refl => I end))).
Defined.

(** C9 as the specification words it fails.  ["A"] toggles ["C"]; ["B"] is
    in ["C"]'s room and is not the sender, but it has joined the room named
    by ["A"]'s connection id, and only ["C"] is told.  And a toggle for a
    connection whose room id is the empty string is not broadcast at all. *)
Lemma status_broadcast_counterexample :
  getRoomId "C" b_in_room_of_a.(userSocketMap) = Some "R" /\
  room_members "R" b_in_room_of_a.(rooms) = ["A"; "B"; "C"] /\
  deliveries (effects_of (on "A" (Recv.USER_OFFLINE "C")) b_in_room_of_a) =
    [("C", Emit.USER_OFFLINE "C")] /\
  deliveries (effects_of (on "B" (Recv.USER_OFFLINE "A"))
     (state_after (run [connection "A"; connection "B";
                        message "A" (Recv.JOIN_REQUEST "" "a");
                        message "B" (Recv.JOIN_REQUEST "" "b")]) initial)) = [].
Proof. repeat split. Qed.

(** C9 on concrete connections: ["B"] sets ["A"] OFFLINE; ["A"] itself, the
    other member of the room, is told, and ["B"] is not. *)
Example status_toggle_by_another_connection :
  on "B" (Recv.USER_OFFLINE "A") two_in_room =
    (tt,
     mkServer [with_status OFFLINE alice; bob] two_in_room.(rooms),
     [Assigned [with_status OFFLINE alice; bob];
      Emitted (socket_broadcast_to "B" "R") (Emit.USER_OFFLINE "A") ["A"]]).
Proof. reflexivity. Qed.

(** ** Joining and leaving in bulk *)

Lemma registry_after_joins (R : string) (js : list (SocketId * string)) (s : Server) :
  NoDup (map snd js) ->
  (forall u, In u (getUsersInRoom R s.(userSocketMap)) -> ~ In u.(username) (map snd js)) ->
  userSocketMap (state_after (run (map (join_of R) js)) s) =
    s.(userSocketMap) ++ map (fun j => newUser (fst j) R (snd j)) js.
Proof.
  revert s. induction js as [| [id name] js IH]; intros s Hnd Hfree.
  - simpl. now rewrite app_nil_r.
  - simpl map. rewrite state_after_run_cons.
    inversion Hnd as [| ? ? Hname Hnd']; subst.
    assert (E : userSocketMap (state_after (step (join_of R (id, name))) s) =
                s.(userSocketMap) ++ [newUser id R name]).
    { simpl step. simpl on. rewrite registry_after_join.
      destruct (existsb _ _) eqn:Ex; [| reflexivity].
      apply existsb_exists in Ex as [u [Hu Hn]]. apply String.eqb_eq in Hn.
      exfalso. apply (Hfree u Hu). left. now symmetry. }
    rewrite IH.
    + rewrite E, <- app_assoc. reflexivity.
    + exact Hnd'.
    + intros u Hu. rewrite E, getUsersInRoom_app, getUsersInRoom_newUser in Hu.
      apply in_app_or in Hu as [Hu | [Hu | []]].
      * intros Hin. apply (Hfree u Hu). now right.
      * subst u. exact Hname.
Qed.

Lemma table_delAll_del (id : SocketId) (room : string) (table : RoomTable) :
  table_delAll id (table_del id room table) = table_delAll id table.
Proof.
  unfold table_delAll, table_del.
  induction table as [| [r i] t IH]; simpl; [reflexivity |].
  unfold same_entry at 1. simpl.
  destruct (r =? room); destruct (i =? id) eqn:E; simpl;
    rewrite ?E; simpl; rewrite IH; reflexivity.
Qed.

Lemma rooms_after_disconnect (s : Server) (socket_id : SocketId) :
  rooms (state_after (step (disconnect socket_id)) s) = table_delAll socket_id s.(rooms).
Proof.
  simpl step. rewrite state_after_bind. unfold state_after at 1. cbn [fst snd rooms].
  unfold state_after, on_disconnecting, bind, read, when_user.
  destruct (getUserBySocketId socket_id s.(userSocketMap)) as [u |]; [| reflexivity].
  cbn. apply table_delAll_del.
Qed.

Lemma in_registry_after_disconnects (ds : list SocketId) (s : Server) (u : User) :
  In u (userSocketMap (state_after (run (map disconnect ds)) s)) <->
  In u s.(userSocketMap) /\ ~ In u.(socketId) ds.
Proof.
  revert s. induction ds as [| d ds IH]; intros s.
  - simpl. tauto.
  - simpl map. rewrite state_after_run_cons, IH, registry_after_disconnect.
    rewrite filter_In, negb_true_iff, String.eqb_neq. simpl.
    intuition congruence.
Qed.

Lemma in_rooms_after_disconnects (ds : list SocketId) (s : Server) (e : string * SocketId) :
  In e (rooms (state_after (run (map disconnect ds)) s)) <->
  In e s.(rooms) /\ ~ In (snd e) ds.
Proof.
  revert s. induction ds as [| d ds IH]; intros s.
  - simpl. tauto.
  - simpl map. rewrite state_after_run_cons, IH, rooms_after_disconnect.
    unfold table_delAll. rewrite filter_In, negb_true_iff, String.eqb_neq.
    cbn [In]. split.
    + intros [[H1 H2] H3]. split; [exact H1 |].
      intros [E | H]; [now symmetry in E | contradiction].
    + intros [H1 H2]. split; [split; [exact H1 |] |].
      * intros E. apply H2. left. now symmetry.
      * intros H. apply H2. now right.
Qed.

Lemma no_member_nil {A : Type} (l : list A) : (forall x, ~ In x l) -> l = [].
Proof.
  destruct l as [| x l]; [reflexivity |].
  intros H. exfalso. apply (H x). now left.
Qed.

(** A disconnect of a connection that has neither a record nor a room left
    changes nothing and emits nothing. *)
Lemma disconnect_again (s : Server) (socket_id : SocketId) :
  ~ In socket_id (map socketId s.(userSocketMap)) ->
  (forall e, In e s.(rooms) -> snd e <> socket_id) ->
  step (disconnect socket_id) s = (tt, s, []).
Proof.
  intros Hreg Hrooms. apply getUserBySocketId_none in Hreg.
  simpl step. unfold on_disconnecting, bind, read, when_user. rewrite Hreg.
  cbn. destruct s as [reg table]. cbn in *. do 2 f_equal.
  unfold table_delAll. f_equal. apply filter_all.
  intros e He. apply negb_true_iff, String.eqb_neq. now apply Hrooms.
Qed.

(** C8.  Room [R] is empty; the connections of [js] join it, each under a
    name of its own; then the connections of [ds], which include all of
    those (in any order, possibly more than once, possibly with others),
    disconnect.  Then all the joins were admitted (the room held exactly
    their records, in order), the registry ends with no record of room [R]
    (and with no record at all when it had none to begin with), and one more
    disconnect of any of these connections changes nothing and emits
    nothing. *)
Theorem join_then_leave_no_leak (s : Server) (R : string)
    (js : list (SocketId * string)) (ds : list SocketId) :
  getUsersInRoom R s.(userSocketMap) = [] ->
  NoDup (map snd js) ->
  incl (map fst js) ds ->
  let joined := state_after (run (map (join_of R) js)) s in
  let gone := state_after (run (map disconnect ds)) joined in
  getUsersInRoom R joined.(userSocketMap) = map (fun j => newUser (fst j) R (snd j)) js /\
  length (getUsersInRoom R joined.(userSocketMap)) = length js /\
  getUsersInRoom R gone.(userSocketMap) = [] /\
  (s.(userSocketMap) = [] -> gone.(userSocketMap) = []) /\
  (forall id, In id ds -> step (disconnect id) gone = (tt, gone, [])).
Proof.
  intros Hempty Hnd Hincl joined gone.
  assert (Hj : joined.(userSocketMap) =
               s.(userSocketMap) ++ map (fun j => newUser (fst j) R (snd j)) js).
  { apply registry_after_joins; [exact Hnd |].
    intros u Hu. rewrite Hempty in Hu. destruct Hu. }
  assert (Hroom : getUsersInRoom R joined.(userSocketMap) =
                  map (fun j => newUser (fst j) R (snd j)) js).
  { rewrite Hj, getUsersInRoom_app, Hempty. simpl.
    apply filter_all. intros u Hu. apply in_map_iff in Hu as [j [E _]].
    subst u. simpl. apply String.eqb_refl. }
  assert (Hnew : forall u, In u (map (fun j => newUser (fst j) R (snd j)) js) ->
                           In u.(socketId) ds).
  { intros u Hu. apply in_map_iff in Hu as [j [E Hjin]]. subst u. simpl.
    apply Hincl. now apply in_map. }
  split; [exact Hroom |]. split; [rewrite Hroom; apply length_map |].
  split; [| split].
  - apply no_member_nil. intros u Hu.
    apply in_getUsersInRoom in Hu as [Hu HR].
    apply in_registry_after_disconnects in Hu as [Hu Hnot].
    apply Hnot, Hnew. rewrite <- Hroom. now apply in_getUsersInRoom.
  - intros Hnil. apply no_member_nil. intros u Hu.
    apply in_registry_after_disconnects in Hu as [Hu Hnot].
    rewrite Hj, Hnil in Hu. simpl in Hu. now apply Hnot, Hnew.
  - intros id Hid. apply disconnect_again.
    + intros Hin. apply in_map_iff in Hin as [u [E Hu]].
      apply in_registry_after_disconnects in Hu as [_ Hnot]. congruence.
    + intros e He E. apply in_rooms_after_disconnects in He as [_ Hnot]. congruence.
Qed.

(** C8 on three connections that leave in another order than they came. *)
Lemma join_then_leave_no_leak_witness :
  let joined :=
    state_after (run (map (join_of "R") [("A", "a"); ("B", "b"); ("C", "c")]))
      (state_after (run [connection "A"; connection "B"; connection "C"]) initial) in
  let gone := state_after (run (map disconnect ["B"; "C"; "A"])) joined in
  getUsersInRoom "R" joined.(userSocketMap) = [alice; bob; carol] /\
  length (getUsersInRoom "R" joined.(userSocketMap)) = 3 /\
  getUsersInRoom "R" gone.(userSocketMap) = [] /\
  gone = initial /\
  step (disconnect "B") gone = (tt, gone, []).
Proof.
  destruct (join_then_leave_no_leak
              (state_after (run [connection "A"; connection "B"; connection "C"]) initial)
              "R" [("A", "a"); ("B", "b"); ("C", "c")] ["B"; "C"; "A"])
    as [H1 [H2 [H3 [_ H5]]]].
  - reflexivity.
  - simpl. repeat constructor; simpl; intuition discriminate.
  - intros x Hx. simpl in *. intuition.
  - split; [exact H1 |]. split; [exact H2 |]. split; [exact H3 |].
    split; [reflexivity |]. apply H5. simpl. auto.
Defined.

(** C6 on concrete connections: ["A"] closes; ["B"], the other member of its
    room, gets the notice with ["A"]'s record, and the record is gone
    afterwards. *)
Example disconnect_of_a_member :
  step (disconnect "A") two_in_room =
    (tt,
     mkServer [bob] [("B", "B"); ("C", "C"); ("R", "B")],
     [Emitted (socket_broadcast_to "A" "R") (Emit.USER_DISCONNECTED alice) ["B"];
      Assigned [bob];
      Left "A" "R"]).
Proof. reflexivity. Qed.

(** * Further properties of the handlers *)

(** ** What one input does to the server *)

Lemma on_relayed (socket_id : SocketId) (ev : Recv.t) (n : Emit.t) :
  relayed_notice socket_id ev = Some n ->
  on socket_id ev = relay_to_own_room socket_id n.
Proof.
  destruct ev; simpl; intros E; try discriminate E;
    injection E as <-; reflexivity.
Qed.

Lemma map_identity_map_matching (id : SocketId) (f : User -> User) (reg : list User) :
  (forall u, identity (f u) = identity u) ->
  map identity (map_matching id f reg) = map identity reg.
Proof.
  intros Hf. unfold map_matching. rewrite map_map. apply map_ext.
  intros u. destruct (u.(socketId) =? id); [apply Hf | reflexivity].
Qed.

Lemma rooms_after_status (s : Server) (socket_id id : SocketId)
    (st : USER_CONNECTION_STATUS) :
  rooms (state_after (on socket_id (status_request st id)) s) = s.(rooms).
Proof.
  destruct st; simpl on; unfold on_USER_OFFLINE, on_USER_ONLINE;
    rewrite !state_after_bind;
    rewrite (state_after_when_room_emit _ (socket_broadcast_to socket_id));
    reflexivity.
Qed.

Lemma rooms_after_typing_start (s : Server) (socket_id : SocketId) (pos : Z) :
  rooms (state_after (on_TYPING_START socket_id pos) s) = s.(rooms).
Proof.
  unfold on_TYPING_START. rewrite !state_after_bind.
  rewrite (state_after_when_user_emit _
             (fun user => socket_broadcast_to socket_id user.(roomId)) Emit.TYPING_START).
  reflexivity.
Qed.

Lemma rooms_after_typing_pause (s : Server) (socket_id : SocketId) :
  rooms (state_after (on_TYPING_PAUSE socket_id) s) = s.(rooms).
Proof.
  unfold on_TYPING_PAUSE. rewrite !state_after_bind.
  rewrite (state_after_when_user_emit _
             (fun user => socket_broadcast_to socket_id user.(roomId)) Emit.TYPING_PAUSE).
  reflexivity.
Qed.

Lemma server_eta (s : Server) : mkServer s.(userSocketMap) s.(rooms) = s.
Proof. now destruct s. Qed.

(** The four things an input can do: open a connection's own room, drop a
    connection's records and memberships, admit a join, or leave every
    record's identity, every record's position and the room table alone. *)
Lemma step_shape (i : Input) (s : Server) :
  let s' := state_after (step i) s in
  (exists socket_id,
     i = connection socket_id /\
     s' = mkServer s.(userSocketMap) (table_add socket_id socket_id s.(rooms))) \/
  (exists socket_id,
     i = disconnect socket_id /\
     s' = mkServer (filter (fun u => negb (u.(socketId) =? socket_id)) s.(userSocketMap))
                   (table_delAll socket_id s.(rooms))) \/
  (exists socket_id room name,
     i = message socket_id (Recv.JOIN_REQUEST room name) /\
     existsb (fun user => user.(username) =? name)
             (getUsersInRoom room s.(userSocketMap)) = false /\
     s' = mkServer (s.(userSocketMap) ++ [newUser socket_id room name])
                   (table_add socket_id room s.(rooms))) \/
  (exists socket_id ev,
     i = message socket_id ev /\
     map identity s'.(userSocketMap) = map identity s.(userSocketMap) /\
     s'.(rooms) = s.(rooms)).
Proof.
  intros s'. subst s'.
  destruct i as [socket_id | socket_id ev | socket_id].
  - left. exists socket_id. split; reflexivity.
  - assert (Hsame : state_after (on socket_id ev) s = s ->
                    exists socket_id0 ev0,
                      message socket_id ev = message socket_id0 ev0 /\
                      map identity (userSocketMap (state_after (step (message socket_id ev)) s)) =
                        map identity s.(userSocketMap) /\
                      rooms (state_after (step (message socket_id ev)) s) = s.(rooms)).
    { intros E. exists socket_id, ev. simpl step. rewrite E. auto. }
    destruct (relayed_notice socket_id ev) as [n |] eqn:Hrel.
    { do 3 right. apply Hsame. rewrite (on_relayed _ _ _ Hrel). apply state_after_relay. }
    destruct ev; try discriminate Hrel; try (do 3 right; apply Hsame; reflexivity).
    + match goal with
      | |- context [Recv.JOIN_REQUEST ?r ?n] =>
          destruct (existsb (fun user => user.(username) =? n)
                            (getUsersInRoom r s.(userSocketMap))) eqn:E;
          [ do 3 right; apply Hsame; unfold state_after; simpl on;
            now rewrite (on_JOIN_REQUEST_taken _ _ _ _ E)
          | do 2 right; left; exists socket_id, r, n;
            split; [reflexivity |]; split; [exact E |];
            unfold state_after; simpl step; simpl on;
            now rewrite (on_JOIN_REQUEST_free _ _ _ _ E) ]
      end.
    + match goal with
      | |- context [Recv.USER_OFFLINE ?id] =>
          do 3 right; eexists; eexists; split; [reflexivity |];
          change (step (message socket_id (Recv.USER_OFFLINE id)))
            with (on socket_id (status_request OFFLINE id));
          split;
          [ rewrite registry_after_status; now apply map_identity_map_matching
          | apply rooms_after_status ]
      end.
    + match goal with
      | |- context [Recv.USER_ONLINE ?id] =>
          do 3 right; eexists; eexists; split; [reflexivity |];
          change (step (message socket_id (Recv.USER_ONLINE id)))
            with (on socket_id (status_request ONLINE id));
          split;
          [ rewrite registry_after_status; now apply map_identity_map_matching
          | apply rooms_after_status ]
      end.
    + do 3 right. eexists. eexists. split; [reflexivity |]. simpl step. simpl on. split.
      * rewrite registry_after_typing_start. now apply map_identity_map_matching.
      * apply rooms_after_typing_start.
    + do 3 right. eexists. eexists. split; [reflexivity |]. simpl step. simpl on. split.
      * rewrite registry_after_typing_pause. now apply map_identity_map_matching.
      * apply rooms_after_typing_pause.
  - right. left. exists socket_id. split; [reflexivity |].
    rewrite <- (server_eta (state_after (step (disconnect socket_id)) s)).
    now rewrite registry_after_disconnect, rooms_after_disconnect.
Qed.

(** ** Names within a room *)

Lemma map_seat_of_identity (reg reg' : list User) :
  map identity reg' = map identity reg -> map seat reg' = map seat reg.
Proof.
  intros H.
  assert (E : forall l, map seat l = map (fun t => (snd (fst t), snd t)) (map identity l)).
  { intros l. rewrite map_map. reflexivity. }
  now rewrite !E, H.
Qed.

Lemma NoDup_keys_filter {K : Type} (key : User -> K) (keep : User -> bool)
    (reg : list User) :
  NoDup (map key reg) -> NoDup (map key (filter keep reg)).
Proof.
  intros Hnd. induction reg as [| u reg IH]; simpl in *; [constructor |].
  apply NoDup_cons_iff in Hnd as [Hu Hreg].
  destruct (keep u); simpl; [constructor |]; auto.
  intros Hin. apply Hu. apply in_map_iff in Hin as [v [E Hv]].
  apply filter_In in Hv as [Hv _]. rewrite <- E. now apply in_map.
Qed.

Lemma seat_is_free (room name : string) (reg : list User) :
  existsb (fun user => user.(username) =? name) (getUsersInRoom room reg) = false ->
  ~ In (room, name) (map seat reg).
Proof.
  intros E Hin. apply in_map_iff in Hin as [u [Hs Hu]].
  injection Hs as Hr Hn.
  assert (T : existsb (fun user => user.(username) =? name) (getUsersInRoom room reg) = true).
  { apply isUsernameExist_iff. now exists u. }
  congruence.
Qed.

Lemma NoDup_seats_step (i : Input) (s : Server) :
  NoDup (map seat s.(userSocketMap)) ->
  NoDup (map seat (userSocketMap (state_after (step i) s))).
Proof.
  intros Hnd.
  destruct (step_shape i s)
    as [[sid [_ E]] | [[sid [_ E]] | [[sid [room [name [_ [Hfree E]]]]] | [sid [ev [_ [E _]]]]]]].
  - now rewrite E.
  - rewrite E. simpl. now apply NoDup_keys_filter.
  - rewrite E. simpl. rewrite map_app. simpl.
    apply NoDup_app; [exact Hnd | repeat constructor; intros [] |].
    intros x Hx [Hs | []]. subst x. now apply (seat_is_free room name _ Hfree).
  - now rewrite (map_seat_of_identity _ _ E).
Qed.

Lemma NoDup_seats_run (trace : list Input) (s : Server) :
  NoDup (map seat s.(userSocketMap)) ->
  NoDup (map seat (userSocketMap (state_after (run trace) s))).
Proof.
  revert s. induction trace as [| i rest IH]; intros s Hnd; [exact Hnd |].
  rewrite state_after_run_cons. apply IH. now apply NoDup_seats_step.
Qed.

(** X1.  Whatever the inputs, from the empty server on: no two records of the
    registry have the same room and the same username (records of any
    status; the join handler does not look at the status). *)
Theorem usernames_unique_per_room (trace : list Input) :
  NoDup (map seat (userSocketMap (state_after (run trace) initial))).
Proof. apply NoDup_seats_run. constructor. Qed.

Lemma NoDup_map_injective {K : Type} (key : User -> K) (reg : list User) (u v : User) :
  NoDup (map key reg) -> In u reg -> In v reg -> key u = key v -> u = v.
Proof.
  induction reg as [| w reg IH]; simpl; intros Hnd Hu Hv E; [destruct Hu |].
  apply NoDup_cons_iff in Hnd as [Hw Hreg].
  destruct Hu as [-> | Hu], Hv as [-> | Hv]; auto.
  - exfalso. apply Hw. rewrite E. now apply in_map.
  - exfalso. apply Hw. rewrite <- E. now apply in_map.
Qed.

(** X10.  In a state the server can reach, once the connection of a record
    has disconnected, a join request for that record's room under that
    record's name is admitted, whichever connection sends it: the name is
    free again. *)
Theorem disconnect_frees_the_name (trace : list Input) (u : User) (c : SocketId) :
  let s := state_after (run trace) initial in
  In u s.(userSocketMap) ->
  let s1 := state_after (step (disconnect u.(socketId))) s in
  userSocketMap (state_after (on c (Recv.JOIN_REQUEST u.(roomId) u.(username))) s1) =
    s1.(userSocketMap) ++ [newUser c u.(roomId) u.(username)].
Proof.
  intros s Hu s1. simpl on. rewrite registry_after_join.
  destruct (existsb _ _) eqn:E; [| reflexivity]. exfalso.
  apply isUsernameExist_iff in E as [v [Hv [Hr Hn]]].
  subst s1. rewrite registry_after_disconnect in Hv.
  apply filter_In in Hv as [Hv Hne].
  apply negb_true_iff, String.eqb_neq in Hne. apply Hne.
  assert (Evu : v = u).
  { apply (NoDup_map_injective seat s.(userSocketMap)); auto.
    - subst s. apply NoDup_seats_run. constructor.
    - unfold seat. now rewrite Hr, Hn. }
  now subst v.
Qed.

(** X10 on concrete connections: ["A"] leaves, ["C"] takes its name. *)
Lemma disconnect_frees_the_name_witness :
  userSocketMap
    (state_after (run [message "A" (Recv.USER_OFFLINE "A"); disconnect "A";
                       message "C" (Recv.JOIN_REQUEST "R" "a")]) two_in_room) =
    [bob; newUser "C" "R" "a"].
Proof.
  pose proof (disconnect_frees_the_name
                [connection "A"; connection "B"; connection "C";
                 message "A" (Recv.JOIN_REQUEST "R" "a");
                 message "B" (Recv.JOIN_REQUEST "R" "b");
                 message "A" (Recv.USER_OFFLINE "A")]
                (with_status OFFLINE alice) "C") as H.
  cbv zeta in H. exact (H (or_introl eq_refl)).
Defined.

(** ** Records keep their identity *)

(** X2.  No input other than a disconnect removes or moves a record, and no
    input at all changes a record's connection id, room or username: after
    the input, the record at each position has the identity of the record
    that was there before. *)
Theorem identity_fields_immutable (i : Input) (s : Server) (n : nat) (u : User) :
  (forall socket_id, i <> disconnect socket_id) ->
  nth_error s.(userSocketMap) n = Some u ->
  exists u',
    nth_error (userSocketMap (state_after (step i) s)) n = Some u' /\
    u'.(socketId) = u.(socketId) /\
    u'.(roomId) = u.(roomId) /\
    u'.(username) = u.(username).
Proof.
  intros Hi Hn.
  destruct (step_shape i s)
    as [[sid [_ E]] | [[sid [Hd _]] | [[sid [room [name [_ [_ E]]]]] | [sid [ev [_ [E _]]]]]]].
  - exists u. rewrite E. auto.
  - exfalso. exact (Hi sid Hd).
  - exists u. rewrite E. simpl. rewrite nth_error_app1; auto.
    apply nth_error_Some. congruence.
  - assert (Hid : nth_error (map identity (userSocketMap (state_after (step i) s))) n =
                  Some (identity u)).
    { rewrite E. rewrite nth_error_map, Hn. reflexivity. }
    rewrite nth_error_map in Hid.
    destruct (nth_error (userSocketMap (state_after (step i) s)) n) as [u' |];
      [| discriminate Hid].
    exists u'. split; [reflexivity |].
    simpl in Hid. injection Hid as H1 H2 H3. auto.
Qed.

(** X2 on a typing update of the first record of the registry. *)
Lemma identity_fields_immutable_witness :
  exists u',
    nth_error (userSocketMap (state_after (step (message "A" (Recv.TYPING_START 12)))
                                          two_in_room)) 0 = Some u' /\
    u'.(socketId) = "A" /\ u'.(roomId) = "R" /\ u'.(username) = "a".
Proof.
  apply (identity_fields_immutable (message "A" (Recv.TYPING_START 12)) two_in_room 0 alice).
  - intros socket_id H. discriminate H.
  - reflexivity.
Defined.

(** ** The room table and the registry *)

Lemma in_table_delAll (e : string * SocketId) (id : SocketId) (table : RoomTable) :
  In e (table_delAll id table) <-> In e table /\ snd e <> id.
Proof.
  unfold table_delAll. now rewrite filter_In, negb_true_iff, String.eqb_neq.
Qed.

Lemma in_room_members (room : string) (id : SocketId) (table : RoomTable) :
  In id (room_members room table) <-> In (room, id) table.
Proof. apply in_room_members_table. Qed.

Lemma identity_transfer (reg reg' : list User) (u : User) :
  map identity reg' = map identity reg ->
  In u reg ->
  exists v, In v reg' /\ v.(socketId) = u.(socketId) /\ v.(roomId) = u.(roomId).
Proof.
  intros E Hu.
  assert (H : In (identity u) (map identity reg')) by (rewrite E; now apply in_map).
  apply in_map_iff in H as [v [Ev Hv]]. exists v. split; [exact Hv |].
  injection Ev as H1 H2 H3. auto.
Qed.

Lemma table_agrees_step (i : Input) (s : Server) :
  table_agrees s -> table_agrees (state_after (step i) s).
Proof.
  intros [Hrec Hent].
  destruct (step_shape i s)
    as [[sid [_ E]] | [[sid [_ E]] | [[sid [room [name [_ [_ E]]]]] | [sid [ev [_ [E Er]]]]]]].
  - rewrite E. split; simpl.
    + intros u Hu. apply in_table_add. left. now apply Hrec.
    + intros r id H. apply in_table_add in H as [H | H].
      * now apply Hent.
      * injection H as -> ->. now left.
  - rewrite E. split; simpl.
    + intros u Hu. apply filter_In in Hu as [Hu Hne].
      apply negb_true_iff, String.eqb_neq in Hne.
      apply in_table_delAll. split; [now apply Hrec | exact Hne].
    + intros r id H. apply in_table_delAll in H as [H Hne]. simpl in Hne.
      destruct (Hent r id H) as [-> | [u [Hu [Hid Hr]]]]; [now left |].
      right. exists u. split; [| auto].
      apply filter_In. split; [exact Hu |].
      apply negb_true_iff, String.eqb_neq. congruence.
  - rewrite E. split; simpl.
    + intros u Hu. apply in_table_add. apply in_app_or in Hu as [Hu | [<- | []]].
      * left. now apply Hrec.
      * now right.
    + intros r id H. apply in_table_add in H as [H | H].
      * destruct (Hent r id H) as [-> | [u [Hu [Hid Hr]]]]; [now left |].
        right. exists u. split; [apply in_or_app; now left | auto].
      * injection H as -> ->. right. exists (newUser sid room name).
        split; [apply in_or_app; right; now left | auto].
  - split.
    + intros u Hu. rewrite Er.
      destruct (identity_transfer _ _ u (eq_sym E) Hu) as [v [Hv [Hid Hr]]].
      rewrite <- Hid, <- Hr. now apply Hrec.
    + intros r id H. rewrite Er in H.
      destruct (Hent r id H) as [-> | [u [Hu [Hid Hr]]]]; [now left |].
      destruct (identity_transfer _ _ u E Hu) as [v [Hv [Hid' Hr']]].
      right. exists v. split; [exact Hv |]. split; congruence.
Qed.

Lemma table_agrees_run (trace : list Input) (s : Server) :
  table_agrees s -> table_agrees (state_after (run trace) s).
Proof.
  revert s. induction trace as [| i rest IH]; intros s H; [exact H |].
  rewrite state_after_run_cons. apply IH. now apply table_agrees_step.
Qed.

Lemma table_agrees_initial : table_agrees initial.
Proof. split; simpl; intros; contradiction. Qed.

(** X3.  Whatever the inputs, from the empty server on, socket.io's room
    table and the registry agree: the connection of every record is a member
    of the record's room, and every member of a room either is the
    connection the room is named after or has a record in that room. *)
Theorem room_table_matches_registry (trace : list Input) :
  table_agrees (state_after (run trace) initial).
Proof. apply table_agrees_run, table_agrees_initial. Qed.

(** ** The relayed events: directories, files, chat, drawing requests *)

Lemma getRoomId_of_user (id : SocketId) (reg : list User) :
  getRoomId id reg = option_map roomId (getUserBySocketId id reg).
Proof.
  unfold getRoomId, getUserBySocketId. now destruct (find _ reg).
Qed.

Lemma effects_of_relay (s : Server) (socket_id : SocketId) (n : Emit.t) :
  effects_of (relay_to_own_room socket_id n) s =
    match getRoomId socket_id s.(userSocketMap) with
    | Some room =>
        if room =? "" then []
        else [Emitted (socket_broadcast_to socket_id room) n
                      (receivers (socket_broadcast_to socket_id room) s.(rooms))]
    | None => []
    end.
Proof.
  unfold effects_of, relay_to_own_room, bind, read, when_room.
  destruct (getRoomId socket_id s.(userSocketMap)) as [room |]; [| reflexivity].
  now destruct (room =? "").
Qed.

(** X4.  In a state the server can reach, let the sender of a directory,
    file, chat or drawing-request event have a record (the first one, [u],
    decides the room), in a room whose id is not empty and is not itself the
    id of a connected socket.  Then the server's state does not change, and
    a connection receives something exactly when it has a record in [u]'s
    room and is not a member of the room named by the sender's connection id
    (as the sender itself is); what it receives is the event's own notice
    with the payload as it came (the sender's id for a drawing request). *)
Theorem relay_reaches_the_room (trace : list Input) (socket_id : SocketId)
    (ev : Recv.t) (n : Emit.t) (u : User) :
  let s := state_after (run trace) initial in
  relayed_notice socket_id ev = Some n ->
  first_record socket_id s.(userSocketMap) u ->
  u.(roomId) <> "" ->
  ~ In u.(roomId) (room_members u.(roomId) s.(rooms)) ->
  state_after (on socket_id ev) s = s /\
  (forall x e,
     In (x, e) (deliveries (effects_of (on socket_id ev) s)) <->
     e = n /\ ~ In x (room_members socket_id s.(rooms)) /\
     exists v, In v s.(userSocketMap) /\ v.(socketId) = x /\ v.(roomId) = u.(roomId)).
Proof.
  intros s Hrel Hu Hroom Hname. apply first_record_iff in Hu.
  rewrite (on_relayed _ _ _ Hrel). split; [apply state_after_relay |].
  intros x e. rewrite effects_of_relay, getRoomId_of_user, Hu. simpl option_map. cbv iota.
  apply String.eqb_neq in Hroom. rewrite Hroom.
  rewrite in_deliveries_single, broadcast_receivers, in_room_members.
  destruct (table_agrees_run trace initial table_agrees_initial) as [Hrec Hent].
  fold s in Hrec, Hent. split.
  - intros [-> [Hin Hne]]. split; [reflexivity |]. split; [exact Hne |].
    destruct (Hent _ _ Hin) as [E | Hv]; [| exact Hv].
    exfalso. apply Hname. apply in_room_members. now rewrite E at 2.
  - intros [-> [Hne [v [Hv [Hid Hr]]]]]. split; [reflexivity |]. split; [| exact Hne].
    rewrite <- Hid, <- Hr. now apply Hrec.
Qed.

(** X4 on a chat message in a room of two. *)
Lemma relay_reaches_the_room_witness :
  In ("B", Emit.RECEIVE_MESSAGE (JStr "hi"))
     (deliveries (effects_of (on "A" (Recv.SEND_MESSAGE (JStr "hi"))) two_rooms)) <->
  Emit.RECEIVE_MESSAGE (JStr "hi") = Emit.RECEIVE_MESSAGE (JStr "hi") /\
  ~ In "B" (room_members "A" two_rooms.(rooms)) /\
  exists v, In v two_rooms.(userSocketMap) /\ v.(socketId) = "B" /\ v.(roomId) = "R".
Proof.
  apply (relay_reaches_the_room
    [connection "A"; connection "B"; connection "C"; connection "D";
     message "A" (Recv.JOIN_REQUEST "R" "a");
     message "B" (Recv.JOIN_REQUEST "R" "b");
     message "D" (Recv.JOIN_REQUEST "Q" "a")]
    "A" (Recv.SEND_MESSAGE (JStr "hi")) (Emit.RECEIVE_MESSAGE (JStr "hi")) alice).
  - reflexivity.
  - exists [], [bob; newUser "D" "Q" "a"]. repeat split. intros [].
  - simpl. discriminate.
  - vm_compute. intros [H | [H | []]]; discriminate H.
Defined.

(** With ["B"] in the room named by ["A"]'s connection id, ["A"]'s chat
    message reaches ["C"] and not ["B"]. *)
Example relay_skips_the_excepted :
  deliveries (effects_of (on "A" (Recv.SEND_MESSAGE (JStr "hi"))) b_in_room_of_a) =
    [("C", Emit.RECEIVE_MESSAGE (JStr "hi"))].
Proof. reflexivity. Qed.

(** ** Events about a connection the registry does not know *)

Lemma map_matching_absent (id : SocketId) (f : User -> User) (reg : list User) :
  getUserBySocketId id reg = None -> map_matching id f reg = reg.
Proof.
  intros H. unfold map_matching. rewrite <- (map_id reg) at 2.
  apply map_ext_in. intros u Hu.
  pose proof (find_none _ _ H u Hu) as E. simpl in E. now rewrite E.
Qed.



(** X5.  When the connection a handler looks up has no record (the sender,
    for a directory, file, chat, drawing-request or typing event; the
    connection named in the payload, for a status toggle), the event is
    dropped: the registry and the room table stay exactly as they were and
    no connection receives anything. *)
Theorem unknown_connection_is_ignored (s : Server) (socket_id id : SocketId)
    (ev : Recv.t) :
  looked_up socket_id ev = Some id ->
  getUserBySocketId id s.(userSocketMap) = None ->
  userSocketMap (state_after (on socket_id ev) s) = s.(userSocketMap) /\
  rooms (state_after (on socket_id ev) s) = s.(rooms) /\
  deliveries (effects_of (on socket_id ev) s) = [].
Proof.
  intros Hl Hn.
  assert (Hroom : getRoomId id s.(userSocketMap) = None)
    by (now rewrite getRoomId_of_user, Hn).
  destruct (relayed_notice socket_id ev) as [n |] eqn:Hrel.
  - assert (id = socket_id) as ->.
    { destruct ev; simpl in Hl, Hrel; try discriminate Hrel; congruence. }
    rewrite (on_relayed _ _ _ Hrel), state_after_relay, effects_of_relay, Hroom. auto.
  - destruct ev; simpl in Hl, Hrel; try discriminate Hl; try discriminate Hrel;
      injection Hl as ->;
      unfold state_after, effects_of; simpl on;
      unfold on_USER_OFFLINE, on_USER_ONLINE, on_TYPING_START, on_TYPING_PAUSE,
        bind, read, assign, when_room, when_user;
      cbn [userSocketMap rooms fst snd];
      rewrite (map_matching_absent _ _ _ Hn), ?Hroom, ?Hn; auto.
Qed.

(** X5 on a connection that never joined and another that toggles it. *)
Lemma unknown_connection_is_ignored_witness :
  state_after (run [message "C" (Recv.SEND_MESSAGE (JStr "hi"));
                    message "C" (Recv.TYPING_START 3);
                    message "A" (Recv.USER_OFFLINE "C")]) two_in_room = two_in_room /\
  deliveries (effects_of (on "A" (Recv.USER_OFFLINE "C")) two_in_room) = [].
Proof.
  split; [reflexivity |].
  apply (unknown_connection_is_ignored two_in_room "A" "C" (Recv.USER_OFFLINE "C"));
    reflexivity.
Defined.



(** ** Typing *)



(** ** Status toggles, one after the other *)

Lemma map_matching_twice (id : SocketId) (f g : User -> User) (reg : list User) :
  (forall u, (f u).(socketId) = u.(socketId)) ->
  map_matching id g (map_matching id f reg) =
  map_matching id (fun u => g (f u)) reg.
Proof.
  intros Hf. unfold map_matching. rewrite map_map. apply map_ext. intros u.
  destruct (u.(socketId) =? id) eqn:E; [now rewrite Hf, E | now rewrite E].
Qed.

Lemma map_matching_swap (id1 id2 : SocketId) (f g : User -> User) (reg : list User) :
  id1 <> id2 ->
  (forall u, (f u).(socketId) = u.(socketId)) ->
  (forall u, (g u).(socketId) = u.(socketId)) ->
  map_matching id2 g (map_matching id1 f reg) =
  map_matching id1 f (map_matching id2 g reg).
Proof.
  intros Hne Hf Hg. unfold map_matching. rewrite !map_map. apply map_ext. intros u.
  destruct (u.(socketId) =? id1) eqn:E1, (u.(socketId) =? id2) eqn:E2;
    rewrite ?Hf, ?Hg, ?E1, ?E2; try reflexivity.
  apply String.eqb_eq in E1, E2. congruence.
Qed.

(** X7.  Of two status toggles for the same connection the later one
    decides, whoever sent them: the registry is the one the later toggle
    alone would have produced (so repeating a toggle changes nothing more).
    Toggles for two different connections give the same registry in either
    order. *)
Theorem last_status_toggle_wins (s : Server) (a b id id' : SocketId)
    (st1 st2 : USER_CONNECTION_STATUS) :
  userSocketMap (state_after (on b (status_request st2 id))
                             (state_after (on a (status_request st1 id)) s)) =
    userSocketMap (state_after (on b (status_request st2 id)) s) /\
  (id <> id' ->
   userSocketMap (state_after (on b (status_request st2 id'))
                              (state_after (on a (status_request st1 id)) s)) =
     userSocketMap (state_after (on a (status_request st1 id))
                                (state_after (on b (status_request st2 id')) s))).
Proof.
  rewrite !registry_after_status. split.
  - rewrite map_matching_twice by reflexivity. reflexivity.
  - intros Hne. now apply map_matching_swap.
Qed.

(** ** Drawing sync *)

(** X8.  SYNC_DRAWING is addressed to the room named by the connection id
    of the payload and does not touch the server's state: the drawing data,
    without any tag of the sender, is delivered to the members of that room
    that are not members of the room named by the sender's connection id.
    With the named connection and the sender each alone in the room of its
    own id, the named connection is the one receiver; a sender that names
    itself gets nothing. *)
Theorem sync_drawing_reaches_named_connection (s : Server) (socket_id id : SocketId)
    (drawingData : Json) :
  state_after (on socket_id (Recv.SYNC_DRAWING drawingData id)) s = s /\
  (forall x e,
     In (x, e) (deliveries (effects_of (on socket_id (Recv.SYNC_DRAWING drawingData id)) s)) <->
     e = Emit.SYNC_DRAWING drawingData /\
     In x (room_members id s.(rooms)) /\
     ~ In x (room_members socket_id s.(rooms))) /\
  (room_members id s.(rooms) = [id] ->
   room_members socket_id s.(rooms) = [socket_id] ->
   deliveries (effects_of (on socket_id (Recv.SYNC_DRAWING drawingData id)) s) =
     if id =? socket_id then [] else [(id, Emit.SYNC_DRAWING drawingData)]).
Proof.
  split; [reflexivity |]. split.
  - intros x e. unfold effects_of. simpl on. unfold on_SYNC_DRAWING, emit. cbn [snd].
    now rewrite in_deliveries_single, broadcast_receivers.
  - intros Hid Hown. unfold effects_of. simpl on. unfold on_SYNC_DRAWING, emit.
    cbn [snd deliveries]. rewrite (broadcast_alone _ _ _ Hown), Hid. simpl.
    now destruct (id =? socket_id).
Qed.

(** X8 on a connection in another room, and on a sender naming itself. *)
Lemma sync_drawing_reaches_named_connection_witness :
  deliveries (effects_of (on "A" (Recv.SYNC_DRAWING (JStr "strokes") "D")) two_rooms) =
    [("D", Emit.SYNC_DRAWING (JStr "strokes"))] /\
  deliveries (effects_of (on "A" (Recv.SYNC_DRAWING (JStr "strokes") "A")) two_rooms) = [].
Proof.
  split.
  - apply (proj2 (proj2 (sync_drawing_reaches_named_connection
                           two_rooms "A" "D" (JStr "strokes")))); reflexivity.
  - apply (proj2 (proj2 (sync_drawing_reaches_named_connection
                           two_rooms "A" "A" (JStr "strokes")))); reflexivity.
Defined.

(** ** Who can receive anything *)

Lemma receivers_in_table (via : Target) (table : RoomTable) (x : SocketId) :
  In x (receivers via table) -> exists r, In (r, x) table.
Proof.
  destruct via as [room | socket_id room]; simpl; intros H.
  - exists room. now apply in_room_members.
  - apply filter_In in H as [H _]. exists room. now apply in_room_members.
Qed.

Lemma effects_of_bind {A B : Type} (m : Handler A) (k : A -> Handler B) (s : Server) :
  effects_of (bind m k) s =
    effects_of m s ++ effects_of (k (fst (fst (m s)))) (state_after m s).
Proof.
  unfold effects_of, state_after, bind.
  destruct (m s) as [[a s1] l1]. simpl.
  destruct (k a s1) as [[b s2] l2]. reflexivity.
Qed.

Lemma effects_of_run_cons (i : Input) (rest : list Input) (s : Server) :
  effects_of (run (i :: rest)) s =
    effects_of (step i) s ++ effects_of (run rest) (state_after (step i) s).
Proof. simpl run. now rewrite effects_of_bind. Qed.

Lemma deliveries_app (l1 l2 : list Effect) :
  deliveries (l1 ++ l2) = deliveries l1 ++ deliveries l2.
Proof.
  induction l1 as [| e l1 IH]; simpl; [reflexivity |].
  destruct e; rewrite IH; [now rewrite app_assoc | reflexivity ..].
Qed.

Lemma in_deliveries (log : list Effect) (x : SocketId) (ev : Emit.t) :
  In (x, ev) (deliveries log) <->
  exists via to, In (Emitted via ev to) log /\ In x to.
Proof.
  induction log as [| e log IH]; simpl.
  - split; [contradiction | now intros [via [to [[] _]]]].
  - destruct e as [via n to | reg | id room | id room].
    + rewrite in_app_iff, IH, in_map_iff. split.
      * intros [[y [E Hy]] | [via' [to' [Hin Hx]]]].
        -- injection E as -> ->. exists via, to. auto.
        -- exists via', to'. auto.
      * intros [via' [to' [[E | Hin] Hx]]].
        -- injection E as -> -> ->. left. now exists x.
        -- right. now exists via', to'.
    + rewrite IH. split; intros [via [to [H Hx]]]; exists via, to;
        [auto | destruct H as [H | H]; [discriminate H | auto]].
    + rewrite IH. split; intros [via [to [H Hx]]]; exists via, to;
        [auto | destruct H as [H | H]; [discriminate H | auto]].
    + rewrite IH. split; intros [via [to [H Hx]]]; exists via, to;
        [auto | destruct H as [H | H]; [discriminate H | auto]].
Qed.

(** Whatever an input makes the server emit goes to connections that are in
    the room table, or to the connection the input belongs to. *)
Lemma emitted_to_members (i : Input) (s : Server) (via : Target) (ev : Emit.t)
    (to : list SocketId) (x : SocketId) :
  In (Emitted via ev to) (effects_of (step i) s) ->
  In x to ->
  (exists r, In (r, x) s.(rooms)) \/ x = subject i.
Proof.
  intros Hin Hx.
  assert (Hold : forall via', to = receivers via' s.(rooms) ->
                              (exists r, In (r, x) s.(rooms)) \/ x = subject i).
  { intros via' ->. left. now apply (receivers_in_table via'). }
  assert (Hnew : forall via' room, to = receivers via' (table_add (subject i) room s.(rooms)) ->
                                   (exists r, In (r, x) s.(rooms)) \/ x = subject i).
  { intros via' room ->. apply receivers_in_table in Hx as [r Hr].
    apply in_table_add in Hr as [Hr | Hr]; [left; now exists r |].
    right. now injection Hr. }
  destruct i as [socket_id | socket_id e | socket_id].
  - destruct Hin.
  - destruct (relayed_notice socket_id e) as [n |] eqn:Hrel.
    { simpl step in Hin. rewrite (on_relayed _ _ _ Hrel), effects_of_relay in Hin.
      destruct (getRoomId socket_id s.(userSocketMap)) as [room |]; [| destruct Hin].
      destruct (room =? ""); [destruct Hin |].
      destruct Hin as [Hin | []]. injection Hin as <- <- <-.
      now apply (Hold (socket_broadcast_to socket_id room)). }
    destruct e; try discriminate Hrel; simpl step in Hin; simpl on in Hin.
    + unfold effects_of in Hin.
      match type of Hin with
      | context [on_JOIN_REQUEST _ ?r ?n] =>
          destruct (existsb (fun user => user.(username) =? n)
                            (getUsersInRoom r s.(userSocketMap))) eqn:E;
          [ rewrite (on_JOIN_REQUEST_taken _ _ _ _ E) in Hin
          | rewrite (on_JOIN_REQUEST_free _ _ _ _ E) in Hin ]
      end; cbn [snd] in Hin.
      * destruct Hin as [Hin | []]. injection Hin as <- <- <-.
        now apply (Hold (io_to socket_id)).
      * destruct Hin as [Hin | [Hin | [Hin | [Hin | []]]]]; try discriminate Hin;
          injection Hin as <- <- <-.
        -- now apply (Hnew (socket_broadcast_to socket_id roomId0) roomId0).
        -- now apply (Hnew (io_to socket_id) roomId0).
    + destruct Hin as [Hin | []]. injection Hin as <- <- <-.
      now apply (Hold (socket_broadcast_to socket_id roomId0)).
    + destruct Hin as [Hin | []]. injection Hin as <- <- <-.
      now apply (Hold (socket_broadcast_to socket_id roomId0)).
    + destruct Hin as [Hin | []]. injection Hin as <- <- <-.
      now apply (Hold (socket_broadcast_to socket_id roomId0)).
    + destruct Hin as [Hin | []]. injection Hin as <- <- <-.
      now apply (Hold (io_to socket_id)).
    + unfold effects_of, on_USER_OFFLINE, bind, read, assign, when_room in Hin.
      break_handler Hin; echo_cases.
      eapply (Hold (socket_broadcast_to _ _)); reflexivity.
    + unfold effects_of, on_USER_ONLINE, bind, read, assign, when_room in Hin.
      break_handler Hin; echo_cases.
      eapply (Hold (socket_broadcast_to _ _)); reflexivity.
    + unfold effects_of, on_TYPING_START, bind, read, assign, when_user in Hin.
      break_handler Hin; echo_cases.
      eapply (Hold (socket_broadcast_to _ _)); reflexivity.
    + unfold effects_of, on_TYPING_PAUSE, bind, read, assign, when_user in Hin.
      break_handler Hin; echo_cases.
      eapply (Hold (socket_broadcast_to _ _)); reflexivity.
    + destruct Hin as [Hin | []]. injection Hin as <- <- <-.
      eapply (Hold (socket_broadcast_to _ _)); reflexivity.
  - unfold effects_of, step, on_disconnecting, bind, read, assign, emit, socket_leave,
      when_user, ret in Hin.
    break_handler Hin; echo_cases.
    eapply (Hold (socket_broadcast_to _ _)); reflexivity.
Qed.

Lemma stays_out_of_rooms (i : Input) (s : Server) (x : SocketId) :
  subject i <> x ->
  (forall r, ~ In (r, x) s.(rooms)) ->
  forall r, ~ In (r, x) (rooms (state_after (step i) s)).
Proof.
  intros Hsub Hout r Hin.
  destruct (step_shape i s)
    as [[sid [-> E]] | [[sid [-> E]] | [[sid [room [name [-> [_ E]]]]] | [sid [ev [_ [_ E]]]]]]];
    rewrite E in Hin; simpl in Hin, Hsub.
  - apply in_table_add in Hin as [Hin | Hin]; [now apply (Hout r) |].
    injection Hin as _ Hx. congruence.
  - apply in_table_delAll in Hin as [Hin _]. now apply (Hout r).
  - apply in_table_add in Hin as [Hin | Hin]; [now apply (Hout r) |].
    injection Hin as _ Hx. congruence.
  - now apply (Hout r).
Qed.

Lemma no_delivery_outside_rooms (trace : list Input) (s : Server) (x : SocketId)
    (ev : Emit.t) :
  Forall (fun i => subject i <> x) trace ->
  (forall r, ~ In (r, x) s.(rooms)) ->
  ~ In (x, ev) (deliveries (effects_of (run trace) s)).
Proof.
  revert s. induction trace as [| i rest IH]; intros s Hall Hout; [intros [] |].
  apply Forall_cons_iff in Hall as [Hi Hrest].
  rewrite effects_of_run_cons, deliveries_app, in_app_iff. intros [H | H].
  - apply in_deliveries in H as [via [to [Hin Hx]]].
    destruct (emitted_to_members i s via ev to x Hin Hx) as [[r Hr] | E].
    + now apply (Hout r).
    + now apply Hi.
  - revert H. apply IH; [exact Hrest |]. now apply stays_out_of_rooms.
Qed.

(** X9.  Once a connection has disconnected, nothing is delivered to it any
    more: whatever inputs of other connections follow (joins, messages,
    signaling, toggles that name it, disconnects), no emission of the server
    has it among its receivers. *)
Theorem no_delivery_after_disconnect (s : Server) (socket_id : SocketId)
    (trace : list Input) (ev : Emit.t) :
  Forall (fun i => subject i <> socket_id) trace ->
  ~ In (socket_id, ev)
       (deliveries (effects_of (run trace) (state_after (step (disconnect socket_id)) s))).
Proof.
  intros Hall. apply no_delivery_outside_rooms; [exact Hall |].
  intros r Hin. rewrite rooms_after_disconnect in Hin.
  apply in_table_delAll in Hin as [_ Hne]. now apply Hne.
Qed.

(** X9 after ["A"] has left a room of three: a toggle that names it, a chat
    message, an offer to the room, a drawing sync addressed to it. *)
Lemma no_delivery_after_disconnect_witness :
  ~ In ("A", Emit.SYNC_DRAWING (JStr "strokes"))
       (deliveries (effects_of
          (run [message "B" (Recv.USER_ONLINE "A");
                message "B" (Recv.SEND_MESSAGE (JStr "hi"));
                message "C" (Recv.SIGNAL_OFFER (JStr "sdp") "R" []);
                message "C" (Recv.SYNC_DRAWING (JStr "strokes") "A")])
          (state_after (step (disconnect "A")) three_in_room))).
Proof.
  apply (no_delivery_after_disconnect three_in_room "A").
  repeat constructor; simpl; discriminate.
Defined.

(** ** Membership notices reach the room's participants *)

(** In an agreeing state, the members of a room whose id is not the id of a
    connected socket are the connections with a record in that room. *)
Lemma members_are_participants (s : Server) (R : string) (x : SocketId) :
  table_agrees s ->
  ~ In R (room_members R s.(rooms)) ->
  (In x (room_members R s.(rooms)) <->
   exists v, In v s.(userSocketMap) /\ v.(socketId) = x /\ v.(roomId) = R).
Proof.
  intros [Hrec Hent] Hname. rewrite in_room_members. split.
  - intros Hin. destruct (Hent _ _ Hin) as [E | Hv]; [| exact Hv].
    exfalso. apply Hname. apply in_room_members. now rewrite E at 2.
  - intros [v [Hv [Hid Hr]]]. rewrite <- Hid, <- Hr. now apply Hrec.
Qed.

(** X12.  In a state the server can reach, let a connection that has its own
    room to itself ask to join a room whose id is not the id of a connected
    socket, under a name no record of the room has.  Then USER_JOINED with
    the new record goes to exactly the other connections that have a record
    in the room, and JOIN_ACCEPTED goes to the requester alone, with the
    room's records in registry order followed by the new record. *)
Theorem join_notifies_the_room (trace : list Input) (C R name : string) :
  let s := state_after (run trace) initial in
  let c := newUser C R name in
  (forall u, In u s.(userSocketMap) -> u.(roomId) = R -> u.(username) <> name) ->
  room_members C s.(rooms) = [C] ->
  ~ In R (room_members R s.(rooms)) ->
  forall x e,
    In (x, e) (deliveries (effects_of (on C (Recv.JOIN_REQUEST R name)) s)) <->
    (e = Emit.USER_JOINED c /\ x <> C /\
     exists v, In v s.(userSocketMap) /\ v.(socketId) = x /\ v.(roomId) = R) \/
    (e = Emit.JOIN_ACCEPTED c (getUsersInRoom R s.(userSocketMap) ++ [c]) /\ x = C).
Proof.
  intros s c Hfree Hown Hname x e. subst c.
  assert (Hagree : table_agrees s) by apply table_agrees_run, table_agrees_initial.
  assert (HRC : R <> C).
  { intros ->. apply Hname. rewrite Hown. now left. }
  assert (E : existsb (fun user => user.(username) =? name)
                      (getUsersInRoom R s.(userSocketMap)) = false).
  { destruct (existsb _ _) eqn:Ex; [| reflexivity].
    apply isUsernameExist_iff in Ex as [u [Hu [Hr Hn]]].
    exfalso. exact (Hfree u Hu Hr Hn). }
  unfold effects_of. simpl on. rewrite (on_JOIN_REQUEST_free _ _ _ _ E).
  cbn [snd deliveries]. rewrite app_nil_r, in_app_iff, !in_map_iff.
  rewrite (room_members_add_other C R C) by (now apply not_eq_sym).
  rewrite Hown.
  assert (Hmem : forall y, In y (receivers (socket_broadcast_to C R) (table_add C R s.(rooms))) <->
                           y <> C /\ exists v, In v s.(userSocketMap) /\ v.(socketId) = y /\ v.(roomId) = R).
  { intros y. rewrite broadcast_receivers.
    rewrite (room_members_add_other C R C) by (now apply not_eq_sym).
    rewrite Hown, in_room_members, in_table_add, <- in_room_members.
    rewrite (members_are_participants s R y Hagree Hname). simpl. split.
    - intros [[H | H] Hne].
      + split; [| exact H]. intros ->. apply Hne. now left.
      + injection H as H. exfalso. apply Hne. left. now symmetry.
    - intros [Hne H]. split; [now left |].
      intros [Ey | []]. apply Hne. now symmetry. }
  split.
  - intros [[y [Ey Hy]] | [y [Ey Hy]]]; injection Ey as Ex Ee; subst y e.
    + left. split; [reflexivity |]. now apply Hmem.
    + right. destruct Hy as [-> | []]. auto.
  - intros [[-> [Hne Hv]] | [-> ->]].
    + left. exists x. split; [reflexivity |]. apply Hmem. auto.
    + right. exists C. split; [reflexivity | now left].
Qed.

(** X12 on the join of a third connection. *)
Lemma join_notifies_the_room_witness :
  In ("B", Emit.USER_JOINED carol)
     (deliveries (effects_of (on "C" (Recv.JOIN_REQUEST "R" "c")) two_rooms)) <->
  (Emit.USER_JOINED carol = Emit.USER_JOINED carol /\ "B" <> "C" /\
   exists v, In v two_rooms.(userSocketMap) /\ v.(socketId) = "B" /\ v.(roomId) = "R") \/
  (Emit.USER_JOINED carol = Emit.JOIN_ACCEPTED carol [alice; bob; carol] /\ "B" = "C").
Proof.
  apply (join_notifies_the_room
    [connection "A"; connection "B"; connection "C"; connection "D";
     message "A" (Recv.JOIN_REQUEST "R" "a");
     message "B" (Recv.JOIN_REQUEST "R" "b");
     message "D" (Recv.JOIN_REQUEST "Q" "a")] "C" "R" "c").
  - vm_compute. intros u [<- | [<- | [<- | []]]] Hr Hn; discriminate.
  - reflexivity.
  - vm_compute. intros [H | [H | []]]; discriminate H.
Defined.

(** X13.  In a state the server can reach, when a connection whose first
    record [u] is in a room whose id is not the id of a connected socket
    disconnects, USER_DISCONNECTED with [u] is delivered to exactly the
    connections that have a record in [u]'s room and are not members of the
    room named by the closing connection's id (as that connection itself
    is). *)
Theorem disconnect_notifies_the_room (trace : list Input) (socket_id : SocketId)
    (u : User) :
  let s := state_after (run trace) initial in
  first_record socket_id s.(userSocketMap) u ->
  ~ In u.(roomId) (room_members u.(roomId) s.(rooms)) ->
  forall x e,
    In (x, e) (deliveries (effects_of (step (disconnect socket_id)) s)) <->
    e = Emit.USER_DISCONNECTED u /\
    ~ In x (room_members socket_id s.(rooms)) /\
    exists v, In v s.(userSocketMap) /\ v.(socketId) = x /\ v.(roomId) = u.(roomId).
Proof.
  intros s Hu Hname x e. apply first_record_iff in Hu.
  assert (Hagree : table_agrees s) by apply table_agrees_run, table_agrees_initial.
  unfold effects_of. simpl step.
  unfold on_disconnecting, bind, read, when_user. rewrite Hu.
  cbn [snd fst emit assign socket_leave app deliveries].
  rewrite app_nil_r, in_map_iff.
  split.
  - intros [y [Ey Hy]]. injection Ey as Ex Ee. subst y e.
    apply broadcast_receivers in Hy as [Hy Hne].
    split; [reflexivity |]. split; [exact Hne |].
    now apply (members_are_participants s u.(roomId) x Hagree Hname).
  - intros [-> [Hne Hv]]. exists x. split; [reflexivity |].
    apply broadcast_receivers. split; [| exact Hne].
    now apply (members_are_participants s u.(roomId) x Hagree Hname).
Qed.

(** X13 on a room of three. *)
Lemma disconnect_notifies_the_room_witness :
  In ("C", Emit.USER_DISCONNECTED bob)
     (deliveries (effects_of (step (disconnect "B")) three_in_room)) <->
  Emit.USER_DISCONNECTED bob = Emit.USER_DISCONNECTED bob /\
  ~ In "C" (room_members "B" three_in_room.(rooms)) /\
  exists v, In v three_in_room.(userSocketMap) /\ v.(socketId) = "C" /\ v.(roomId) = "R".
Proof.
  apply (disconnect_notifies_the_room
    [connection "A"; connection "B"; connection "C";
     message "A" (Recv.JOIN_REQUEST "R" "a");
     message "B" (Recv.JOIN_REQUEST "R" "b");
     message "C" (Recv.JOIN_REQUEST "R" "c")] "B" bob).
  - exists [alice], [carol]. repeat split. simpl. intros [H | []]. discriminate H.
  - vm_compute. intros [H | [H | [H | []]]]; discriminate H.
Defined.
